(** * Certificate rotation in the CRD controller

    A shallow embedding of [pkg/controllers/crds/crds_controller.go]:
    the validity check [ValidCert], the issuers [CreateCACert] and
    [CreateCertPEM], the rotation engine [refreshCertIfNeeded] /
    [refreshCerts] and the reconciliation entry point [updateCRD].

    The controller is written against the Go standard library
    (encoding/pem, crypto/x509, crypto/tls, crypto/rsa, time) and the
    Kubernetes client.  Those packages are modelled symbolically, one
    module per package, following their documented behaviour; the
    controller's own functions are then transcribed statement by
    statement on top of that model.  Logging is left out, and so are
    the manager wiring ([SetupWithManager], [ConvertToWebhookInfo]) and
    the file-system probe [EnsureCertsMounted], which take no part in
    rotation. *)

From stdpp Require Import base option list strings gmap.
From Stdlib Require Import ZArith Lia.

#[local] Set Warnings "-clear-no-such-hyp".

Open Scope string_scope.
Open Scope Z_scope.

(** ** Go basics *)

(** A Go [error] value; the nil error is [None : option error]. *)
Definition error := string.

Module errors.
Definition New (msg : string) : error := msg.
End errors.

(** ** package time

    Instants are whole seconds since the epoch (the resolution of the
    validity fields of an X.509 certificate), durations are seconds. *)
Module time.
Definition Time := Z.
Definition Duration := Z.
Definition Second : Duration := 1.
Definition Hour : Duration := 3600 * Second.
Definition Add (t : Time) (d : Duration) : Time := t + d.
Definition Before (t u : Time) : bool := t <? u.
Definition After (t u : Time) : bool := u <? t.
End time.

(** ** package crypto/rsa

    Keys are symbolic: a private key is identified by its modulus and
    private exponent, the matching public key is the embedded
    [PublicKey] field, exactly as in Go's [rsa.PrivateKey]. *)
Module rsa.
Record PublicKey := mkPublicKey { N : Z; E : Z }.
Record PrivateKey := mkPrivateKey { Pub : PublicKey; D : Z }.

#[global] Instance PublicKey_eq_dec : EqDecision PublicKey.
Proof. solve_decision. Defined.
#[global] Instance PrivateKey_eq_dec : EqDecision PrivateKey.
Proof. solve_decision. Defined.

(** [key.Public()] *)
Definition Public (k : PrivateKey) : PublicKey := Pub k.

(** [rand.Reader] is the list of keys that successive calls of
    [rsa.GenerateKey] will draw; an exhausted reader makes key
    generation fail. *)
Definition Reader := list PrivateKey.

Definition GenerateKey (random : Reader) (bits : Z)
  : (PrivateKey + error) * Reader :=
  match random with
  | k :: rest => (inl k, rest)
  | [] => (inr (errors.New "crypto/rsa: reading random source failed"), [])
  end.
End rsa.

(** ** packages crypto/x509/pkix and crypto/x509

    Certificates are symbolic records; host names are DNS names and are
    compared verbatim. *)
Module pkix.
Record Name := mkName { CommonName : string; Organization : list string }.
#[global] Instance Name_eq_dec : EqDecision Name.
Proof. solve_decision. Defined.
End pkix.

Module x509.
Inductive ExtKeyUsage :=
| ExtKeyUsageAny
| ExtKeyUsageServerAuth
| ExtKeyUsageClientAuth
| ExtKeyUsageCodeSigning.

#[global] Instance ExtKeyUsage_eq_dec : EqDecision ExtKeyUsage.
Proof. solve_decision. Defined.

(** Key-usage bits, with the values of the Go constants. *)
Definition KeyUsageDigitalSignature : Z := 1.
Definition KeyUsageContentCommitment : Z := 2.
Definition KeyUsageKeyEncipherment : Z := 4.
Definition KeyUsageDataEncipherment : Z := 8.
Definition KeyUsageKeyAgreement : Z := 16.
Definition KeyUsageCertSign : Z := 32.
Definition KeyUsageCRLSign : Z := 64.

(** The fields of [x509.Certificate] that the controller sets or that
    verification reads ([ExtKeyUsages] is Go's field [ExtKeyUsage]).
    [PublicKey] is [None] in a template.
    [Signature] is symbolic: [Some k] is a signature that verifies
    under the public key [k] (and under no other), [None] is a
    signature that verifies under no key. *)
Record Certificate := mkCertificate {
  Version : Z;
  SerialNumber : Z;
  Subject : pkix.Name;
  Issuer : pkix.Name;
  DNSNames : list string;
  NotBefore : time.Time;
  NotAfter : time.Time;
  KeyUsage : Z;
  ExtKeyUsages : list ExtKeyUsage;
  BasicConstraintsValid : bool;
  IsCA : bool;
  PublicKey : option rsa.PublicKey;
  Signature : option rsa.PublicKey
}.

#[global] Instance Certificate_eq_dec : EqDecision Certificate.
Proof. solve_decision. Defined.

(** An ASN.1 DER byte string, by what it parses as. *)
Inductive DER :=
| DERCertificate (c : Certificate)
| DERPKCS1 (k : rsa.PrivateKey)
| DERPKCS8 (k : rsa.PrivateKey)
| DERRaw (octets : list Z).

#[global] Instance DER_eq_dec : EqDecision DER.
Proof. solve_decision. Defined.

(** [x509.ParseCertificate]: a parsed certificate always carries a
    public key. *)
Definition ParseCertificate (der : DER) : Certificate + error :=
  match der with
  | DERCertificate c =>
      match PublicKey c with
      | Some _ => inl c
      | None => inr (errors.New "x509: malformed tbs certificate")
      end
  | _ => inr (errors.New "x509: malformed certificate")
  end.

Definition MarshalPKCS1PrivateKey (k : rsa.PrivateKey) : DER := DERPKCS1 k.

Definition ParsePKCS1PrivateKey (der : DER) : rsa.PrivateKey + error :=
  match der with
  | DERPKCS1 k => inl k
  | DERPKCS8 _ =>
      inr (errors.New "x509: failed to parse private key (use ParsePKCS8PrivateKey instead for this key format)")
  | _ => inr (errors.New "x509: failed to parse private key")
  end.

Definition ParsePKCS8PrivateKey (der : DER) : rsa.PrivateKey + error :=
  match der with
  | DERPKCS8 k => inl k
  | DERPKCS1 _ =>
      inr (errors.New "x509: failed to parse private key (use ParsePKCS1PrivateKey instead for this key format)")
  | _ => inr (errors.New "x509: failed to parse private key")
  end.

(** [x509.CreateCertificate(rand, template, parent, pub, priv)].  The
    new certificate takes its fields from the template, its issuer
    from the parent's subject, and is signed with [priv].  Go refuses
    a negative serial number and a signing key that does not belong
    to the parent's public key (a template used as its own parent has
    no public key yet).  Signing with PKCS #1 v1.5 draws nothing from
    the random source.  Go always issues version 3 certificates. *)
Definition CreateCertificate (template parent : Certificate)
    (pub : rsa.PublicKey) (priv : rsa.PrivateKey) : DER + error :=
  if SerialNumber template <? 0 then
    inr (errors.New "x509: serial number must be positive")
  else if bool_decide (PublicKey parent = None
                       ∨ PublicKey parent = Some (rsa.Public priv)) then
    inl (DERCertificate
           {| Version := 3;
              SerialNumber := SerialNumber template;
              Subject := Subject template;
              Issuer := Subject parent;
              DNSNames := DNSNames template;
              NotBefore := NotBefore template;
              NotAfter := NotAfter template;
              KeyUsage := KeyUsage template;
              ExtKeyUsages := ExtKeyUsages template;
              BasicConstraintsValid := BasicConstraintsValid template;
              IsCA := IsCA template;
              PublicKey := Some pub;
              Signature := Some (rsa.Public priv) |})
  else
    inr (errors.New "x509: provided PrivateKey doesn't match parent's PublicKey").

(** *** Verification *)

Definition CertPool := list Certificate.
Definition NewCertPool : CertPool := [].
Definition AddCert (pool : CertPool) (c : Certificate) : CertPool :=
  (pool ++ [c])%list.
Definition contains (pool : CertPool) (c : Certificate) : bool :=
  bool_decide (c ∈ pool).

Record VerifyOptions := mkVerifyOptions {
  DNSName : string;
  Roots : CertPool;
  CurrentTime : time.Time
}.

(** The validity-period test that [Verify] applies to every
    certificate of a chain: [CurrentTime] must not be before
    [NotBefore] nor after [NotAfter]. *)
Definition checkTime (c : Certificate) (now : time.Time) : option error :=
  if time.Before now (NotBefore c) then
    Some (errors.New "x509: certificate has expired or is not yet valid: current time is before NotBefore")
  else if time.After now (NotAfter c) then
    Some (errors.New "x509: certificate has expired or is not yet valid: current time is after NotAfter")
  else None.

(** [c.VerifyHostname(h)], for a DNS name compared verbatim with the
    certificate's subject alternative names. *)
Definition VerifyHostname (c : Certificate) (h : string) : option error :=
  if bool_decide (h ∈ DNSNames c) then None
  else Some (errors.New "x509: certificate is not valid for the requested name").

(** Whether [parent] may sign certificates, as [CheckSignatureFrom]
    tests it (RFC 5280, 4.2.1.9): a version 3 certificate needs basic
    constraints, present basic constraints need the CA flag, and a key
    usage, when present, must include certificate signing. *)
Definition canSign (parent : Certificate) : bool :=
  negb (((Version parent =? 3) && negb (BasicConstraintsValid parent))
        || (BasicConstraintsValid parent && negb (IsCA parent)))
  && negb (negb (KeyUsage parent =? 0)
           && (Z.land (KeyUsage parent) KeyUsageCertSign =? 0)).

(** [c.CheckSignatureFrom(parent)]: the parent must be entitled to
    sign and the signature must verify under the parent's public
    key. *)
Definition CheckSignatureFrom (c parent : Certificate) : option error :=
  if negb (canSign parent) then
    Some (errors.New "x509: invalid signature: parent certificate cannot sign this kind of certificate")
  else if bool_decide (is_Some (Signature c)
                       ∧ Signature c = PublicKey parent) then None
  else Some (errors.New "crypto/rsa: verification error").

(** A root is accepted as the issuer of [c] when the names chain, the
    signature checks and the root itself is within its validity
    period. *)
Definition acceptableRoot (c : Certificate) (now : time.Time)
    (root : Certificate) : bool :=
  bool_decide (Subject root = Issuer c)
  && bool_decide (CheckSignatureFrom c root = None)
  && bool_decide (checkTime root now = None).

(** A certificate restricts a chain's use when it lists extended key
    usages; server authentication (the default usage asked by
    [Verify]) is then allowed only if listed, or if any usage is. *)
Definition permitsServerAuth (c : Certificate) : bool :=
  match ExtKeyUsages c with
  | [] => true
  | us => bool_decide (ExtKeyUsageAny ∈ us ∨ ExtKeyUsageServerAuth ∈ us)
  end.

(** [c.Verify(opts)] with no intermediates and the default key usage:
    the chains from [c] to a root of the pool, or the error.  As in Go,
    [c] is first checked against [CurrentTime] and the host name; a
    certificate that is itself in the pool ([opts.Roots.contains(c)])
    is its own chain, with no look at its signature; otherwise the
    roots that are acceptable issuers are tried; last, the chains are
    filtered by extended key usage. *)
Definition Verify (c : Certificate) (opts : VerifyOptions)
  : list (list Certificate) * option error :=
  match checkTime c (CurrentTime opts) with
  | Some err => ([], Some err)
  | None =>
    match (if bool_decide (DNSName opts = "") then None
           else VerifyHostname c (DNSName opts)) with
    | Some err => ([], Some err)
    | None =>
      let candidateChains :=
        if contains (Roots opts) c then [[c]]
        else map (fun root => [c; root])
                 (List.filter (acceptableRoot c (CurrentTime opts)) (Roots opts)) in
      match candidateChains with
      | [] => ([], Some (errors.New "x509: certificate signed by unknown authority"))
      | _ =>
        match List.filter (forallb permitsServerAuth) candidateChains with
        | [] => ([], Some (errors.New "x509: certificate specifies an incompatible key usage"))
        | chains => (chains, None)
        end
      end
    end
  end.
End x509.

(** ** package encoding/pem

    A byte string holding PEM text is a sequence of chunks: text that
    contains no armored block, and armored blocks. *)
Module pem.
Record Block := mkBlock { Type_ : string; Bytes : x509.DER }.

#[global] Instance Block_eq_dec : EqDecision Block.
Proof. solve_decision. Defined.

Inductive chunk :=
| Text (s : string)
| Armor (b : Block).

#[global] Instance chunk_eq_dec : EqDecision chunk.
Proof. solve_decision. Defined.

Definition text := list chunk.

Definition chunk_len (c : chunk) : Z :=
  match c with
  | Text s => Z.of_nat (String.length s)
  | Armor b =>
      (* the BEGIN and END lines alone *)
      32 + 2 * Z.of_nat (String.length (Type_ b))
  end.

(** First armored block of the input, with what follows it. *)
Fixpoint find (data : text) : option (Block * text) :=
  match data with
  | [] => None
  | Text _ :: rest => find rest
  | Armor b :: rest => Some (b, rest)
  end.

(** [pem.Decode]: the first armored block and the remaining input, or
    nil and the whole input when there is no block. *)
Definition Decode (data : text) : option Block * text :=
  match find data with
  | Some (b, rest) => (Some b, rest)
  | None => (None, data)
  end.

(** [pem.Encode(out, b)] on a [bytes.Buffer]: appends the armored block;
    a block without headers written to a buffer cannot fail. *)
Definition Encode (out : text) (b : Block) : text * option error :=
  ((out ++ [Armor b])%list, None).
End pem.

(** The Go type [[]byte] of the controller's PEM blobs, with [len].  An
    armored block is counted by its two delimiter lines, so that [len]
    is zero exactly for an empty byte string, which is all the
    controller asks of it. *)
Abbreviation bytes := pem.text.

Definition len (b : bytes) : Z := foldr (fun c n => pem.chunk_len c + n) 0 b.

(** ** package crypto/tls *)
Module tls.
Record Certificate := mkCertificate {
  Certificate_ : list x509.DER;
  PrivateKey : rsa.PrivateKey
}.

(** All armored blocks of the input, in order: what repeated calls of
    [pem.Decode] on the remaining input return. *)
Fixpoint blocks (data : bytes) : list pem.Block :=
  match data with
  | [] => []
  | pem.Text _ :: rest => blocks rest
  | pem.Armor b :: rest => b :: blocks rest
  end.

Definition HasSuffix (s suffix : string) : bool :=
  String.prefix (String.rev suffix) (String.rev s).

Definition isKeyBlock (b : pem.Block) : bool :=
  bool_decide (pem.Type_ b = "PRIVATE KEY")
  || HasSuffix (pem.Type_ b) " PRIVATE KEY".

(** [parsePrivateKey]: PKCS #1 first, then PKCS #8. *)
Definition parsePrivateKey (der : x509.DER) : rsa.PrivateKey + error :=
  match x509.ParsePKCS1PrivateKey der with
  | inl k => inl k
  | inr _ =>
    match x509.ParsePKCS8PrivateKey der with
    | inl k => inl k
    | inr _ => inr (errors.New "tls: failed to parse private key")
    end
  end.

(** [tls.X509KeyPair(certPEMBlock, keyPEMBlock)]: the CERTIFICATE
    blocks of the first input, the first private-key block of the
    second, the first certificate parsed and its public key compared
    with the private key. *)
Definition X509KeyPair (certPEMBlock keyPEMBlock : bytes)
  : Certificate + error :=
  let certs :=
    map pem.Bytes
        (List.filter (fun b => bool_decide (pem.Type_ b = "CERTIFICATE"))
                     (blocks certPEMBlock)) in
  match certs with
  | [] =>
      match blocks certPEMBlock with
      | [] => inr (errors.New "tls: failed to find any PEM data in certificate input")
      | _ => inr (errors.New "tls: failed to find CERTIFICATE PEM block in certificate input")
      end
  | first :: _ =>
    match List.filter isKeyBlock (blocks keyPEMBlock) with
    | [] =>
        match blocks keyPEMBlock with
        | [] => inr (errors.New "tls: failed to find any PEM data in key input")
        | _ => inr (errors.New "tls: failed to find PEM block with type ending in PRIVATE KEY in key input")
        end
    | keyDERBlock :: _ =>
      match x509.ParseCertificate first with
      | inr err => inr err
      | inl x509Cert =>
        match parsePrivateKey (pem.Bytes keyDERBlock) with
        | inr err => inr err
        | inl priv =>
          match x509.PublicKey x509Cert with
          | Some pub =>
              if rsa.N pub =? rsa.N (rsa.Pub priv) then
                inl {| Certificate_ := certs; PrivateKey := priv |}
              else inr (errors.New "tls: private key does not match public key")
          | None => inr (errors.New "tls: unknown public key algorithm")
          end
        end
      end
    end
  end.
End tls.

(** ** Kubernetes objects and client *)
Module metav1.
Record ObjectMeta := mkObjectMeta {
  Name : string;
  Namespace : string;
  Labels : gmap string string
}.
End metav1.

Module corev1.
(** [Data] is a Go map, which may be nil. *)
Record Secret := mkSecret {
  SecretMeta : metav1.ObjectMeta;
  Data : option (gmap string bytes)
}.
Record Service := mkService { ServiceMeta : metav1.ObjectMeta }.

(** [secret.Data[k]]: reading a nil map or a missing key yields the
    zero value, an empty byte string. *)
Definition index (s : Secret) (k : string) : bytes :=
  match Data s with
  | None => []
  | Some m => default [] (m !! k)
  end.
End corev1.

Module unstructured.
(** JSON-like content of an unstructured object. *)
#[warnings="-register-all"]
Inductive value :=
| String_ (s : string)
| Base64 (b : bytes)          (* a string holding base64 text *)
| Map (m : list (string * value)).

Definition object := list (string * value).

Fixpoint get (k : string) (m : object) : option value :=
  match m with
  | [] => None
  | (k', v) :: rest => if bool_decide (k' = k) then Some v else get k rest
  end.

Fixpoint set (k : string) (v : value) (m : object) : object :=
  match m with
  | [] => [(k, v)]
  | (k', v') :: rest =>
      if bool_decide (k' = k) then (k, v) :: rest else (k', v') :: set k v rest
  end.

(** [unstructured.NestedFieldNoCopy(obj, fields...)] *)
Fixpoint NestedFieldNoCopy (val : value) (fields : list string)
  : option value * bool * option error :=
  match fields with
  | [] => (Some val, true, None)
  | field :: rest =>
      match val with
      | Map m =>
          match get field m with
          | Some v => NestedFieldNoCopy v rest
          | None => (None, false, None)
          end
      | _ => (None, false, Some (errors.New "accessor error: expected map[string]interface{}"))
      end
  end.

(** [unstructured.NestedMap(obj, fields...)] *)
Definition NestedMap (obj : object) (fields : list string)
  : option object * bool * option error :=
  match NestedFieldNoCopy (Map obj) fields with
  | (_, _, Some err) => (None, false, Some err)
  | (_, false, None) => (None, false, None)
  | (Some (Map m), true, None) => (Some m, true, None)
  | (_, true, None) =>
      (None, false, Some (errors.New "accessor error: expected map[string]interface{}"))
  end.

(** [unstructured.SetNestedField(obj, value, fields...)]: missing
    intermediate maps are created; a non-map on the path is an
    error. *)
Fixpoint SetNestedField (obj : object) (v : value) (fields : list string)
  : object * option error :=
  match fields with
  | [] => (obj, None)
  | [field] => (set field v obj, None)
  | field :: rest =>
      match get field obj with
      | Some (Map m) =>
          match SetNestedField m v rest with
          | (m', None) => (set field (Map m') obj, None)
          | (_, Some err) => (obj, Some err)
          end
      | Some _ =>
          (obj, Some (errors.New "value cannot be set because the path is not a map[string]interface{}"))
      | None =>
          match SetNestedField [] v rest with
          | (m', None) => (set field (Map m') obj, None)
          | (_, Some err) => (obj, Some err)
          end
      end
  end.

Record Unstructured := mkUnstructured { Object : object }.
End unstructured.

Module types.
Record NamespacedName := mkNamespacedName { Namespace : string; Name : string }.
End types.

Module ctrl.
Record Request := mkRequest { NamespacedName : types.NamespacedName }.
Record Result := mkResult { Requeue : bool }.
End ctrl.

(** ** The process and its environment *)

(** An object handed to [client.Update]. *)
Inductive Object :=
| SecretObject (s : corev1.Secret)
| UnstructuredObject (u : unstructured.Unstructured).

(** What the controller reads from and writes to besides its
    arguments: the wall clock, the system random source, and the
    sequence of [Update] calls it has issued to the API server. *)
Record World := mkWorld {
  clock : time.Time;
  random : rsa.Reader;
  updates : list Object
}.

(** A run of Go code returns, terminates the process ([os.Exit]) or
    panics (nil dereference). *)
Inductive Outcome (A : Type) :=
| Returned (a : A) (w : World)
| Exited (code : Z) (w : World)
| Panicked (msg : string) (w : World).
Arguments Returned {A} a w.
Arguments Exited {A} code w.
Arguments Panicked {A} msg w.

Definition Go (A : Type) := World → Outcome A.

#[global] Instance Go_ret : MRet Go := fun A a w => Returned a w.

#[global] Instance Go_bind : MBind Go := fun A B k m w =>
  match m w with
  | Returned a w' => k a w'
  | Exited code w' => Exited code w'
  | Panicked msg w' => Panicked msg w'
  end.

Module os.
Definition Exit {A} (code : Z) : Go A := fun w => Exited code w.
End os.

Definition panic {A} (msg : string) : Go A := fun w => Panicked msg w.

Definition time_Now : Go time.Time := fun w => Returned (clock w) w.

(** [rsa.GenerateKey(rand.Reader, bits)] *)
Definition rsa_GenerateKey (bits : Z) : Go (rsa.PrivateKey + error) :=
  fun w =>
    let '(res, rest) := rsa.GenerateKey (random w) bits in
    Returned res {| clock := clock w; random := rest; updates := updates w |}.

(** The embedded [client.Client] interface: the API server's answers,
    which may depend on the state of the world.  [client_Update] also
    records the call; the object handed over is taken to come back
    unchanged. *)
Module client.
Record Client := mkClient {
  ListServices : World → gmap string string → list corev1.Service + error;
  ListSecrets : World → gmap string string → list corev1.Secret + error;
  Get : World → types.NamespacedName → unstructured.Unstructured + error;
  Update : World → Object → option error
}.
End client.

Definition client_Update (c : client.Client) (obj : Object) : Go (option error) :=
  fun w =>
    Returned (client.Update c w obj)
             {| clock := clock w; random := random w;
                updates := (updates w ++ [obj])%list |}.

Definition client_ListServices (c : client.Client) (labels : gmap string string)
  : Go (list corev1.Service + error) :=
  fun w => Returned (client.ListServices c w labels) w.

Definition client_ListSecrets (c : client.Client) (labels : gmap string string)
  : Go (list corev1.Secret + error) :=
  fun w => Returned (client.ListSecrets c w labels) w.

Definition client_Get (c : client.Client) (key : types.NamespacedName)
  : Go (unstructured.Unstructured + error) :=
  fun w => Returned (client.Get c w key) w.

(** * The controller: crds_controller.go *)

Definition certName : string := "tls.crt".
Definition keyName : string := "tls.key".
Definition caCertName : string := "ca.crt".
Definition caKeyName : string := "ca.key".
Definition rotationCheckFrequency : time.Duration := 12 * time.Hour.
Definition certValidityDuration : time.Duration := 10 * 365 * 24 * time.Hour.
Definition lookaheadInterval : time.Duration := 90 * 24 * time.Hour.

Record Reconciler := mkReconciler {
  Client : client.Client;
  SvcLabels : gmap string string;
  SecretLabels : gmap string string;
  CrdResources : list string;
  CertDir : string;
  dnsName : string;
  CAName : string;
  CAOrganization : string;
  RestartOnSecretRefresh : bool
}.

Definition set_dnsName (r : Reconciler) (name : string) : Reconciler :=
  {| Client := Client r; SvcLabels := SvcLabels r;
     SecretLabels := SecretLabels r; CrdResources := CrdResources r;
     CertDir := CertDir r; dnsName := name; CAName := CAName r;
     CAOrganization := CAOrganization r;
     RestartOnSecretRefresh := RestartOnSecretRefresh r |}.

Fixpoint contains (s : list string) (e : string) : bool :=
  match s with
  | [] => false
  | a :: rest => if bool_decide (a = e) then true else contains rest e
  end.

Definition conversionClientConfig : list string :=
  ["spec"; "conversion"; "webhook"; "clientConfig"].

Definition injectSvcToConversionWebhook (crd : unstructured.Unstructured)
    (service : corev1.Service) : unstructured.Unstructured * option error :=
  match unstructured.NestedMap (unstructured.Object crd) conversionClientConfig with
  | (_, _, Some err) => (crd, Some err)
  | (_, false, None) =>
      (crd, Some (errors.New "`conversion.webhook.clientConfig` field not found in CustomResourceDefinition"))
  | (_, true, None) =>
    match unstructured.SetNestedField (unstructured.Object crd)
            (unstructured.String_ (metav1.Name (corev1.ServiceMeta service)))
            (conversionClientConfig ++ ["service"; "name"])%list with
    | (_, Some err) => (crd, Some err)
    | (obj, None) =>
      match unstructured.SetNestedField obj
              (unstructured.String_ (metav1.Namespace (corev1.ServiceMeta service)))
              (conversionClientConfig ++ ["service"; "namespace"])%list with
      | (_, Some err) => ({| unstructured.Object := obj |}, Some err)
      | (obj', None) => ({| unstructured.Object := obj' |}, None)
      end
    end
  end.

Definition injectCertToConversionWebhook (crd : unstructured.Unstructured)
    (certPem : bytes) : unstructured.Unstructured * option error :=
  match unstructured.NestedMap (unstructured.Object crd) conversionClientConfig with
  | (_, _, Some err) => (crd, Some err)
  | (_, false, None) =>
      (crd, Some (errors.New "`conversion.webhook.clientConfig` field not found in CustomResourceDefinition"))
  | (_, true, None) =>
    match unstructured.SetNestedField (unstructured.Object crd)
            (unstructured.Base64 certPem)
            (conversionClientConfig ++ ["caBundle"])%list with
    | (_, Some err) => (crd, Some err)
    | (obj, None) => ({| unstructured.Object := obj |}, None)
    end
  end.

Record KeyPairArtifacts := mkKeyPairArtifacts {
  Cert : x509.Certificate;
  Key : rsa.PrivateKey;
  CertPEM : bytes;
  KeyPEM : bytes
}.

Definition populateSecret (cert key : bytes) (caArtifacts : KeyPairArtifacts)
    (secret : corev1.Secret) : corev1.Secret :=
  let data := match corev1.Data secret with
              | None => ∅
              | Some m => m
              end in
  let data := <[caCertName := CertPEM caArtifacts]> data in
  let data := <[caKeyName := KeyPEM caArtifacts]> data in
  let data := <[certName := cert]> data in
  let data := <[keyName := key]> data in
  {| corev1.SecretMeta := corev1.SecretMeta secret; corev1.Data := Some data |}.

Definition ValidCert (caCert cert key : bytes) (dnsName : string)
    (at_ : time.Time) : bool * option error :=
  if (len caCert =? 0) || (len cert =? 0) || (len key =? 0) then
    (false, Some (errors.New "empty cert"))
  else
    let pool := x509.NewCertPool in
    match pem.Decode caCert with
    | (None, _) => (false, Some (errors.New "bad CA cert"))
    | (Some caDer, _) =>
      match x509.ParseCertificate (pem.Bytes caDer) with
      | inr err => (false, Some err)
      | inl cac =>
        let pool := x509.AddCert pool cac in
        let err : option error :=
          match tls.X509KeyPair cert key with
          | inl _ => None
          | inr e => Some e
          end in
        match err with
        | Some e => (false, Some e)
        | None =>
          match pem.Decode cert with
          | (None, _) => (false, err)
          | (Some b, _) =>
            match x509.ParseCertificate (pem.Bytes b) with
            | inr err => (false, Some err)
            | inl crt =>
              match x509.Verify crt
                      {| x509.DNSName := dnsName;
                         x509.Roots := pool;
                         x509.CurrentTime := at_ |} with
              | (_, Some err) => (false, Some err)
              | (_, None) => (true, None)
              end
            end
          end
        end
      end
    end.

Definition lookaheadTime : Go time.Time :=
  now ← time_Now; mret (time.Add now lookaheadInterval).

Definition validServerCert (r : Reconciler) (caCert cert key : bytes) : Go bool :=
  at_ ← lookaheadTime;
  match ValidCert caCert cert key (dnsName r) at_ with
  | (_, Some _) => mret false
  | (valid, None) => mret valid
  end.

Definition validCACert (r : Reconciler) (cert key : bytes) : Go bool :=
  at_ ← lookaheadTime;
  match ValidCert cert cert key (CAName r) at_ with
  | (_, Some _) => mret false
  | (valid, None) => mret valid
  end.

Definition pemEncode (certificateDER : x509.DER) (key : rsa.PrivateKey)
  : bytes * bytes * option error :=
  let certBuf : bytes := [] in
  match pem.Encode certBuf {| pem.Type_ := "CERTIFICATE"; pem.Bytes := certificateDER |} with
  | (_, Some err) => ([], [], Some err)
  | (certBuf, None) =>
    let keyBuf : bytes := [] in
    match pem.Encode keyBuf {| pem.Type_ := "RSA PRIVATE KEY";
                               pem.Bytes := x509.MarshalPKCS1PrivateKey key |} with
    | (_, Some err) => ([], [], Some err)
    | (keyBuf, None) => (certBuf, keyBuf, None)
    end
  end.

Definition buildArtifactsFromSecret (secret : corev1.Secret)
  : option KeyPairArtifacts * option error :=
  match corev1.Data secret ≫= (.!! caCertName) with
  | None => (None, Some (errors.New "cert secret is not well-formed, missing ca.crt"))
  | Some caPem =>
    match corev1.Data secret ≫= (.!! caKeyName) with
    | None => (None, Some (errors.New "cert secret is not well-formed, missing ca.key"))
    | Some keyPem =>
      match pem.Decode caPem with
      | (None, _) => (None, Some (errors.New "bad CA cert"))
      | (Some caDer, _) =>
        match x509.ParseCertificate (pem.Bytes caDer) with
        | inr err => (None, Some err)
        | inl caCert =>
          let err : option error := None in
          match pem.Decode keyPem with
          | (None, _) => (None, err)
          | (Some keyDer, _) =>
            match x509.ParsePKCS1PrivateKey (pem.Bytes keyDer) with
            | inr err => (None, Some err)
            | inl key =>
                (Some {| Cert := caCert; CertPEM := caPem;
                         KeyPEM := keyPem; Key := key |}, None)
            end
          end
        end
      end
    end
  end.

Definition CreateCACert (r : Reconciler) (begin end_ : time.Time)
  : Go (option KeyPairArtifacts * option error) :=
  let templ :=
    {| x509.Version := 0;
       x509.SerialNumber := 0;
       x509.Subject := {| pkix.CommonName := CAName r;
                          pkix.Organization := [CAOrganization r] |};
       x509.Issuer := {| pkix.CommonName := ""; pkix.Organization := [] |};
       x509.DNSNames := [CAName r];
       x509.NotBefore := begin;
       x509.NotAfter := end_;
       x509.KeyUsage := Z.lor (Z.lor x509.KeyUsageDigitalSignature
                                     x509.KeyUsageKeyEncipherment)
                              x509.KeyUsageCertSign;
       x509.ExtKeyUsages := [];
       x509.BasicConstraintsValid := true;
       x509.IsCA := true;
       x509.PublicKey := None;
       x509.Signature := None |} in
  res ← rsa_GenerateKey 2048;
  match res with
  | inr err => mret (None, Some err)
  | inl key =>
    match x509.CreateCertificate templ templ (rsa.Public key) key with
    | inr err => mret (None, Some err)
    | inl der =>
      match pemEncode der key with
      | (_, _, Some err) => mret (None, Some err)
      | (certPEM, keyPEM, None) =>
        match x509.ParseCertificate der with
        | inr err => mret (None, Some err)
        | inl cert =>
            mret (Some {| Cert := cert; Key := key;
                          CertPEM := certPEM; KeyPEM := keyPEM |}, None)
        end
      end
    end
  end.

Definition CreateCertPEM (r : Reconciler) (ca : option KeyPairArtifacts)
    (begin end_ : time.Time) : Go (bytes * bytes * option error) :=
  let templ :=
    {| x509.Version := 0;
       x509.SerialNumber := 1;
       x509.Subject := {| pkix.CommonName := dnsName r;
                          pkix.Organization := [] |};
       x509.Issuer := {| pkix.CommonName := ""; pkix.Organization := [] |};
       x509.DNSNames := [dnsName r];
       x509.NotBefore := begin;
       x509.NotAfter := end_;
       x509.KeyUsage := Z.lor x509.KeyUsageDigitalSignature
                              x509.KeyUsageKeyEncipherment;
       x509.ExtKeyUsages := [x509.ExtKeyUsageServerAuth];
       x509.BasicConstraintsValid := true;
       x509.IsCA := false;
       x509.PublicKey := None;
       x509.Signature := None |} in
  res ← rsa_GenerateKey 2048;
  match res with
  | inr err => mret ([], [], Some err)
  | inl key =>
    match ca with
    | None => panic "runtime error: invalid memory address or nil pointer dereference"
    | Some ca =>
      match x509.CreateCertificate templ (Cert ca) (rsa.Public key) (Key ca) with
      | inr err => mret ([], [], Some err)
      | inl der =>
        match pemEncode der key with
        | (_, _, Some err) => mret ([], [], Some err)
        | (certPEM, keyPEM, None) => mret (certPEM, keyPEM, None)
        end
      end
    end
  end.

Definition writeSecret (r : Reconciler) (cert key : bytes)
    (caArtifacts : option KeyPairArtifacts) (secret : corev1.Secret)
  : Go (corev1.Secret * option error) :=
  match caArtifacts with
  | None => panic "runtime error: invalid memory address or nil pointer dereference"
  | Some caArtifacts =>
    let secret := populateSecret cert key caArtifacts secret in
    err ← client_Update (Client r) (SecretObject secret);
    mret (secret, err)
  end.

Definition refreshCerts (r : Reconciler) (refreshCA : bool)
    (secret : corev1.Secret) : Go (corev1.Secret * option error) :=
  now ← time_Now;
  let begin := time.Add now (-1 * time.Hour) in
  let end_ := time.Add now certValidityDuration in
  '(caArtifacts, err) ←
     (if refreshCA then CreateCACert r begin end_
      else mret (buildArtifactsFromSecret secret));
  match err with
  | Some err => mret (secret, Some err)
  | None =>
    '(cert, key, err) ← CreateCertPEM r caArtifacts begin end_;
    match err with
    | Some err => mret (secret, Some err)
    | None =>
      '(secret, err) ← writeSecret r cert key caArtifacts secret;
      match err with
      | Some err => mret (secret, Some err)
      | None => mret (secret, None)
      end
    end
  end.

Definition refreshCertIfNeeded (r : Reconciler) (secret : corev1.Secret)
  : Go (corev1.Secret * (bool * option error)) :=
  caStale ←
    match corev1.Data secret with
    | None => mret true
    | Some _ =>
        valid ← validCACert r (corev1.index secret caCertName)
                              (corev1.index secret caKeyName);
        mret (negb valid)
    end;
  if caStale : bool then
    '(secret, err) ← refreshCerts r true secret;
    match err with
    | Some _ => mret (secret, (false, None))
    | None =>
      (if RestartOnSecretRefresh r then os.Exit 0 else mret tt);;
      mret (secret, (true, None))
    end
  else
    valid ← validServerCert r (corev1.index secret caCertName)
                              (corev1.index secret certName)
                              (corev1.index secret keyName);
    if negb valid then
      '(secret, err) ← refreshCerts r false secret;
      match err with
      | Some _ => mret (secret, (false, None))
      | None =>
        (if RestartOnSecretRefresh r then os.Exit 0 else mret tt);;
        mret (secret, (true, None))
      end
    else
      mret (secret, (true, None)).

Definition updateCRD (r : Reconciler) (req : ctrl.Request)
  : Go (Reconciler * option error) :=
  svcList ← client_ListServices (Client r) (SvcLabels r);
  match svcList with
  | inr err => mret (r, Some err)
  | inl svcItems =>
    if negb (Z.of_nat (length svcItems) =? 1) then
      mret (r, Some (errors.New "multiple services match labels"))
    else
      secretList ← client_ListSecrets (Client r) (SecretLabels r);
      match secretList with
      | inr err => mret (r, Some err)
      | inl secretItems =>
        if negb (Z.of_nat (length secretItems) =? 1) then
          mret (r, Some (errors.New "multiple secrets match labels"))
        else
          got ← client_Get (Client r) (ctrl.NamespacedName req);
          match got with
          | inr err => mret (r, Some err)
          | inl updatedResource =>
            match svcItems, secretItems with
            | svc :: _, secret :: _ =>
              match injectSvcToConversionWebhook updatedResource svc with
              | (_, Some err) => mret (r, Some err)
              | (updatedResource, None) =>
                let r := set_dnsName r
                           (metav1.Name (corev1.ServiceMeta svc) +:+ "." +:+
                            metav1.Namespace (corev1.ServiceMeta svc) +:+ ".svc") in
                '(secret, (need, err)) ← refreshCertIfNeeded r secret;
                match err with
                | Some err => mret (r, Some err)
                | None =>
                  injected ←
                    (if need : bool then
                       match buildArtifactsFromSecret secret with
                       | (_, Some err) => mret (updatedResource, Some err)
                       | (None, None) =>
                           panic "runtime error: invalid memory address or nil pointer dereference"
                       | (Some artifacts, None) =>
                           mret (injectCertToConversionWebhook updatedResource
                                   (CertPEM artifacts))
                       end
                     else mret (updatedResource, None));
                  match injected with
                  | (_, Some err) => mret (r, Some err)
                  | (updatedResource, None) =>
                    err ← client_Update (Client r) (UnstructuredObject updatedResource);
                    match err with
                    | Some err => mret (r, Some err)
                    | None => mret (r, None)
                    end
                  end
                end
              end
            | _, _ => panic "runtime error: index out of range [0] with length 0"
            end
          end
      end
  end.

Definition Reconcile (r : Reconciler) (req : ctrl.Request)
  : Go (Reconciler * (ctrl.Result * option error)) :=
  if contains (CrdResources r) (types.Name (ctrl.NamespacedName req)) then
    '(r, err) ← updateCRD r req;
    match err with
    | Some err => mret (r, ({| ctrl.Requeue := false |}, Some err))
    | None => mret (r, ({| ctrl.Requeue := false |}, None))
    end
  else mret (r, ({| ctrl.Requeue := false |}, None)).

(** The webhook descriptions handed to the certificate injector. *)
Inductive WebhookType :=
| Validating
| Mutating
| CRDConversion
| APIService.

Record WebhookInfo := mkWebhookInfo {
  Name : string;
  Type_ : WebhookType
}.

(** The body of the [for p, v := range r.CrdResources] loop of
    [ConvertToWebhookInfo], from index [p] on: [info[p] = r].  The
    slice was made with the length of the ranged one, so the index is
    always within bounds and Go's bounds check never fires. *)
Fixpoint ConvertToWebhookInfo_range (p : nat) (items : list string)
    (info : list WebhookInfo) : list WebhookInfo :=
  match items with
  | [] => info
  | v :: rest =>
      let r := {| Name := v; Type_ := CRDConversion |} in
      ConvertToWebhookInfo_range (S p) rest (<[p := r]> info)
  end.

Definition ConvertToWebhookInfo (r : Reconciler) : list WebhookInfo :=
  let info := replicate (length (CrdResources r))
                        {| Name := ""; Type_ := Validating |} in
  ConvertToWebhookInfo_range 0 (CrdResources r) info.

(** * Vocabulary of the statements *)

(** The certificate held by a PEM blob: its first armored block, parsed. *)
Definition firstCert (b : bytes) : option x509.Certificate :=
  match pem.Decode b with
  | (Some blk, _) =>
      match x509.ParseCertificate (pem.Bytes blk) with
      | inl c => Some c
      | inr _ => None
      end
  | (None, _) => None
  end.

(** The boolean that [validServerCert] and [validCACert] make of the
    result of [ValidCert]: an error counts as invalid. *)
Definition validAt (caCert cert key : bytes) (host : string) (at_ : time.Time) : bool :=
  match ValidCert caCert cert key host at_ with
  | (_, Some _) => false
  | (valid, None) => valid
  end.

Definition inWindow (c : x509.Certificate) (t : time.Time) : Prop :=
  x509.NotBefore c ≤ t ≤ x509.NotAfter c.

(** [c] chains to the trust anchor [root] at time [t] for server
    authentication: it is the anchor itself, or the anchor is an
    acceptable issuer; no certificate of the chain excludes the usage. *)
Definition chainsTo (c root : x509.Certificate) (t : time.Time) : Prop :=
  if decide (c = root) then x509.permitsServerAuth c = true
  else x509.acceptableRoot c t root = true
       ∧ x509.permitsServerAuth c = true ∧ x509.permitsServerAuth root = true.

(** [secret.Data[k]] with the comma-ok flag: nil map and missing key
    both give [None]. *)
Definition lookupData (s : corev1.Secret) (k : string) : option bytes :=
  corev1.Data s ≫= (.!! k).

(** The world after one key was drawn from the random source, and after
    an [Update] call was issued. *)
Definition drawn (w : World) : World :=
  {| clock := clock w; random := tail (random w); updates := updates w |}.

Definition logged (obj : Object) (w : World) : World :=
  {| clock := clock w; random := random w; updates := (updates w ++ [obj])%list |}.

(** The world in which a run ended. *)
Definition final {A} (o : Outcome A) : World :=
  match o with
  | Returned _ w | Exited _ w | Panicked _ w => w
  end.

Definition pemCert (c : x509.Certificate) : bytes :=
  [pem.Armor {| pem.Type_ := "CERTIFICATE"; pem.Bytes := x509.DERCertificate c |}].

Definition pemKey (k : rsa.PrivateKey) : bytes :=
  [pem.Armor {| pem.Type_ := "RSA PRIVATE KEY"; pem.Bytes := x509.DERPKCS1 k |}].

(** The CA certificate that [CreateCACert] issues for the key [k]. *)
Definition caCertificate (r : Reconciler) (begin end_ : time.Time)
    (k : rsa.PrivateKey) : x509.Certificate :=
  {| x509.Version := 3;
     x509.SerialNumber := 0;
     x509.Subject := {| pkix.CommonName := CAName r;
                        pkix.Organization := [CAOrganization r] |};
     x509.Issuer := {| pkix.CommonName := CAName r;
                       pkix.Organization := [CAOrganization r] |};
     x509.DNSNames := [CAName r];
     x509.NotBefore := begin;
     x509.NotAfter := end_;
     x509.KeyUsage := 37;
     x509.ExtKeyUsages := [];
     x509.BasicConstraintsValid := true;
     x509.IsCA := true;
     x509.PublicKey := Some (rsa.Public k);
     x509.Signature := Some (rsa.Public k) |}.

Definition caArtifactsOf (r : Reconciler) (begin end_ : time.Time)
    (k : rsa.PrivateKey) : KeyPairArtifacts :=
  {| Cert := caCertificate r begin end_ k; Key := k;
     CertPEM := pemCert (caCertificate r begin end_ k); KeyPEM := pemKey k |}.

(** The leaf certificate that [CreateCertPEM] issues under [ca] for the
    key [k]. *)
Definition leafCertificate (r : Reconciler) (ca : KeyPairArtifacts)
    (begin end_ : time.Time) (k : rsa.PrivateKey) : x509.Certificate :=
  {| x509.Version := 3;
     x509.SerialNumber := 1;
     x509.Subject := {| pkix.CommonName := dnsName r; pkix.Organization := [] |};
     x509.Issuer := x509.Subject (Cert ca);
     x509.DNSNames := [dnsName r];
     x509.NotBefore := begin;
     x509.NotAfter := end_;
     x509.KeyUsage := 5;
     x509.ExtKeyUsages := [x509.ExtKeyUsageServerAuth];
     x509.BasicConstraintsValid := true;
     x509.IsCA := false;
     x509.PublicKey := Some (rsa.Public k);
     x509.Signature := Some (rsa.Public (Key ca)) |}.

(** Whether [x509.CreateCertificate] lets the key of [ca] sign under
    the certificate of [ca]. *)
Definition keyBelongs (ca : KeyPairArtifacts) : bool :=
  bool_decide (x509.PublicKey (Cert ca) = None
               ∨ x509.PublicKey (Cert ca) = Some (rsa.Public (Key ca))).

(** The validity window that [refreshCerts] gives to what it issues. *)
Definition beginAt (w : World) : time.Time := time.Add (clock w) (-1 * time.Hour).
Definition endAt (w : World) : time.Time := time.Add (clock w) certValidityDuration.

(** The secret after a rotation that issued a leaf for key [k] under [ca]. *)
Definition rotated (r : Reconciler) (ca : KeyPairArtifacts) (k : rsa.PrivateKey)
    (w : World) (secret : corev1.Secret) : corev1.Secret :=
  populateSecret (pemCert (leafCertificate r ca (beginAt w) (endAt w) k))
                 (pemKey k) ca secret.

Definition rngError : error := errors.New "crypto/rsa: reading random source failed".
Definition nilDereference : string :=
  "runtime error: invalid memory address or nil pointer dereference".

(** The two checks of the engine at the lookahead time: the CA
    certificate against itself under the CA name, the leaf against the
    CA under the host name. *)
Definition caValid (r : Reconciler) (secret : corev1.Secret) (w : World) : bool :=
  match corev1.Data secret with
  | None => false
  | Some _ =>
      validAt (corev1.index secret caCertName) (corev1.index secret caCertName)
              (corev1.index secret caKeyName) (CAName r)
              (time.Add (clock w) lookaheadInterval)
  end.

Definition leafValid (r : Reconciler) (secret : corev1.Secret) (w : World) : bool :=
  validAt (corev1.index secret caCertName) (corev1.index secret certName)
          (corev1.index secret keyName) (dnsName r)
          (time.Add (clock w) lookaheadInterval).

(** What the engine makes of the result of [refreshCerts]. *)
Definition afterRefresh (r : Reconciler) (o : Outcome (corev1.Secret * option error))
  : Outcome (corev1.Secret * (bool * option error)) :=
  match o with
  | Returned (s, Some _) w' => Returned (s, (false, None)) w'
  | Returned (s, None) w' =>
      if RestartOnSecretRefresh r then Exited 0 w'
      else Returned (s, (true, None)) w'
  | Exited code w' => Exited code w'
  | Panicked msg w' => Panicked msg w'
  end.

(** How the engine ends once a rotation has been written: with the
    answer of [Update], and with the restart policy. *)
Definition written (r : Reconciler) (payload : corev1.Secret) (w' : World)
  : Outcome (corev1.Secret * (bool * option error)) :=
  match client.Update (Client r) w' (SecretObject payload) with
  | Some _ => Returned (payload, (false, None)) (logged (SecretObject payload) w')
  | None =>
      if RestartOnSecretRefresh r
      then Exited 0 (logged (SecretObject payload) w')
      else Returned (payload, (true, None)) (logged (SecretObject payload) w')
  end.

(** A run that issued no [Update] and, if it returned, returned the
    secret it was given. *)
Definition noUpdate {A} (secret : corev1.Secret) (w : World)
    (o : Outcome (corev1.Secret * A)) : Prop :=
  updates (final o) = updates w
  ∧ ∀ s' res w', o = Returned (s', res) w' → s' = secret.

(** A run that issued exactly one [Update], with [payload], and, if it
    returned, returned [payload] as the new secret. *)
Definition oneUpdate {A} (payload : corev1.Secret) (w : World)
    (o : Outcome (corev1.Secret * A)) : Prop :=
  updates (final o) = (updates w ++ [SecretObject payload])%list
  ∧ ∀ s' res w', o = Returned (s', res) w' → s' = payload.

(** A bundle holds all four blobs and they fit together: both
    certificate blobs parse, the leaf names the CA as issuer and is
    signed under the CA certificate's public key, and the leaf key
    belongs to the leaf certificate. *)
Definition completeBundle (s : corev1.Secret) : Prop :=
  is_Some (lookupData s caCertName) ∧ is_Some (lookupData s caKeyName)
  ∧ is_Some (lookupData s certName) ∧ is_Some (lookupData s keyName)
  ∧ ∃ cac leaf pair,
      firstCert (corev1.index s caCertName) = Some cac
      ∧ firstCert (corev1.index s certName) = Some leaf
      ∧ x509.Issuer leaf = x509.Subject cac
      ∧ x509.Signature leaf = x509.PublicKey cac
      ∧ tls.X509KeyPair (corev1.index s certName) (corev1.index s keyName) = inl pair.

(** The tuple (CA blob, leaf blob, key blob, host name) is a
    structurally valid signed chain: both blobs hold a certificate, the
    key belongs to the leaf, the host name is among the leaf's DNS
    names, the leaf names the CA as issuer and its signature checks
    against the CA, which is entitled to sign, and neither certificate
    excludes server authentication.  Nothing here depends on time. *)
Record SignedChain (caCert cert key : bytes) (host : string)
    (cac crt : x509.Certificate) : Prop := mkSignedChain {
  chain_ca : firstCert caCert = Some cac;
  chain_leaf : firstCert cert = Some crt;
  chain_pair : ∃ pair, tls.X509KeyPair cert key = inl pair;
  chain_host : host ∈ x509.DNSNames crt;
  chain_issuer : x509.Issuer crt = x509.Subject cac;
  chain_signature : x509.CheckSignatureFrom crt cac = None;
  chain_usage : x509.permitsServerAuth crt = true ∧ x509.permitsServerAuth cac = true
}.

(** The CA certificate of the secret, if it parses, is entitled to sign
    certificates.  Every CA that [CreateCACert] issues is. *)
Definition signingCA (s : corev1.Secret) : Prop :=
  ∀ cac, firstCert (corev1.index s caCertName) = Some cac → x509.canSign cac = true.

(** ** Concrete bundles *)
Module Scenario.
Definition day : Z := 24 * time.Hour.
Definition host : string := "webhook.default.svc".
Definition k1 : rsa.PrivateKey :=
  {| rsa.Pub := {| rsa.N := 3233; rsa.E := 17 |}; rsa.D := 2753 |}.
Definition k2 : rsa.PrivateKey :=
  {| rsa.Pub := {| rsa.N := 4087; rsa.E := 17 |}; rsa.D := 3713 |}.
Definition k3 : rsa.PrivateKey :=
  {| rsa.Pub := {| rsa.N := 5183; rsa.E := 17 |}; rsa.D := 4769 |}.
Definition k4 : rsa.PrivateKey :=
  {| rsa.Pub := {| rsa.N := 6557; rsa.E := 17 |}; rsa.D := 6089 |}.

Definition meta : metav1.ObjectMeta :=
  {| metav1.Name := "webhook"; metav1.Namespace := "default"; metav1.Labels := ∅ |}.

(** An API server that finds nothing and accepts every update. *)
Definition api : client.Client :=
  {| client.ListServices := fun _ _ => inl [];
     client.ListSecrets := fun _ _ => inl [];
     client.Get := fun _ _ => inr (errors.New "not found");
     client.Update := fun _ _ => None |}.

(** An API server that finds one service and no secret. *)
Definition apiOneService : client.Client :=
  {| client.ListServices := fun _ _ => inl [ {| corev1.ServiceMeta := meta |} ];
     client.ListSecrets := fun _ _ => inl [];
     client.Get := fun _ _ => inr (errors.New "not found");
     client.Update := fun _ _ => None |}.

Definition reconciler (c : client.Client) : Reconciler :=
  {| Client := c; SvcLabels := ∅; SecretLabels := ∅;
     CrdResources := ["externalsecrets.external-secrets.io"];
     CertDir := "/tmp/certs"; dnsName := host;
     CAName := "external-secrets"; CAOrganization := "external-secrets";
     RestartOnSecretRefresh := false |}.

Definition r0 : Reconciler := reconciler api.
Definition r1 : Reconciler := reconciler apiOneService.

Definition req0 : ctrl.Request :=
  {| ctrl.NamespacedName :=
       {| types.Namespace := ""; types.Name := "externalsecrets.external-secrets.io" |} |}.

Definition secretOf (data : option (gmap string bytes)) : corev1.Secret :=
  {| corev1.SecretMeta := meta; corev1.Data := data |}.

Definition emptySecret : corev1.Secret := secretOf None.

(** Day 1000, four keys left in the random source, nothing updated;
    and the same with the first two keys already used. *)
Definition w0 : World :=
  {| clock := 1000 * day; random := [k1; k2; k3; k4]; updates := [] |}.
Definition w1000 : World :=
  {| clock := 1000 * day; random := [k3; k4]; updates := [] |}.

(** A CA issued on day 0 for 1000 days + 5 years, and under it a leaf
    that expires 10 days after day 1000. *)
Definition ca0 : KeyPairArtifacts := caArtifactsOf r0 0 ((1000 + 5 * 365) * day) k1.
Definition leaf0 : x509.Certificate := leafCertificate r0 ca0 0 (1010 * day) k2.
(** The same with a leaf that lives as long as the CA. *)
Definition leaf1 : x509.Certificate :=
  leafCertificate r0 ca0 0 ((1000 + 5 * 365) * day) k2.

Definition expiringLeafSecret : corev1.Secret :=
  secretOf (Some (<[caCertName := CertPEM ca0]> (<[caKeyName := KeyPEM ca0]>
                 (<[certName := pemCert leaf0]> (<[keyName := pemKey k2]> ∅))))).

(** A CA issued by the engine on day 0, and a leaf re-issued under it
    by a leaf-only rotation on day 3500; the world on day 3600. *)
Definition atDay (d : Z) : World := {| clock := d * day; random := []; updates := [] |}.
Definition oldCA : KeyPairArtifacts :=
  caArtifactsOf r0 (beginAt (atDay 0)) (endAt (atDay 0)) k1.
Definition lateLeaf : x509.Certificate :=
  leafCertificate r0 oldCA (beginAt (atDay 3500)) (endAt (atDay 3500)) k2.

(** The CA of [ca0] with its key stored in PKCS #8 form, no leaf. *)
Definition pkcs8Key (k : rsa.PrivateKey) : bytes :=
  [pem.Armor {| pem.Type_ := "PRIVATE KEY"; pem.Bytes := x509.DERPKCS8 k |}].
Definition pkcs8Secret : corev1.Secret :=
  secretOf (Some (<[caCertName := CertPEM ca0]> (<[caKeyName := pkcs8Key k1]> ∅))).

(** An API server that finds one service, the secret [pkcs8Secret] and
    a CRD with a conversion webhook, and accepts every update. *)
Definition crd0 : unstructured.Unstructured :=
  {| unstructured.Object :=
       [("spec", unstructured.Map
          [("conversion", unstructured.Map
             [("webhook", unstructured.Map
                [("clientConfig", unstructured.Map [])])])])] |}.
Definition apiPkcs8 : client.Client :=
  {| client.ListServices := fun _ _ => inl [ {| corev1.ServiceMeta := meta |} ];
     client.ListSecrets := fun _ _ => inl [ pkcs8Secret ];
     client.Get := fun _ _ => inl crd0;
     client.Update := fun _ _ => None |}.
Definition r2 : Reconciler := reconciler apiPkcs8.

(** A self-signed certificate for the CA name that is not a CA, stored
    as the CA of the bundle, no leaf. *)
Definition plainCert : x509.Certificate :=
  {| x509.Version := 3; x509.SerialNumber := 7;
     x509.Subject := {| pkix.CommonName := CAName r0; pkix.Organization := [] |};
     x509.Issuer := {| pkix.CommonName := CAName r0; pkix.Organization := [] |};
     x509.DNSNames := [CAName r0];
     x509.NotBefore := 0; x509.NotAfter := 5000 * day;
     x509.KeyUsage := 5; x509.ExtKeyUsages := [];
     x509.BasicConstraintsValid := true; x509.IsCA := false;
     x509.PublicKey := Some (rsa.Public k1);
     x509.Signature := Some (rsa.Public k1) |}.
Definition plainSecret : corev1.Secret :=
  secretOf (Some (<[caCertName := pemCert plainCert]> (<[caKeyName := pemKey k1]> ∅))).

(** Text without any PEM block. *)
Definition noPEM : bytes := [pem.Text "not a certificate"].
End Scenario.

(** Further concrete inputs. *)
Module Cases.
Import Scenario.

Definition svc0 : corev1.Service := {| corev1.ServiceMeta := meta |}.

(** [crd0] after the service has been injected. *)
Definition crd1 : unstructured.Unstructured :=
  (injectSvcToConversionWebhook crd0 svc0).1.

(** A resource without a conversion webhook. *)
Definition crdBare : unstructured.Unstructured :=
  {| unstructured.Object := [("spec", unstructured.Map [])] |}.

(** The CA of [ca0] and a leaf under it that lives as long as the CA. *)
Definition goodSecret : corev1.Secret :=
  secretOf (Some (<[caCertName := CertPEM ca0]> (<[caKeyName := KeyPEM ca0]>
                 (<[certName := pemCert leaf1]> (<[keyName := pemKey k2]> ∅))))).

(** The CA of [ca0] with a key entry that holds no PEM block. *)
Definition noKeySecret : corev1.Secret :=
  secretOf (Some (<[caCertName := CertPEM ca0]> (<[caKeyName := noPEM]> ∅))).

(** The CA of [ca0] stored with the key [k2], which is not its key. *)
Definition mismatchedSecret : corev1.Secret :=
  secretOf (Some (<[caCertName := CertPEM ca0]> (<[caKeyName := pemKey k2]> ∅))).
Definition mismatched : KeyPairArtifacts :=
  {| Cert := Cert ca0; Key := k2; CertPEM := CertPEM ca0; KeyPEM := pemKey k2 |}.

(** A second CA, with a key of its own. *)
Definition ca1 : KeyPairArtifacts := caArtifactsOf r0 0 ((1000 + 5 * 365) * day) k4.

(** API servers that find one service, a secret without data and a
    resource, with and without a conversion webhook, and accept every
    update. *)
Definition apiEmpty : client.Client :=
  {| client.ListServices := fun _ _ => inl [svc0];
     client.ListSecrets := fun _ _ => inl [emptySecret];
     client.Get := fun _ _ => inl crd0;
     client.Update := fun _ _ => None |}.
Definition apiBare : client.Client :=
  {| client.ListServices := fun _ _ => inl [svc0];
     client.ListSecrets := fun _ _ => inl [emptySecret];
     client.Get := fun _ _ => inl crdBare;
     client.Update := fun _ _ => None |}.

Definition restarting (r : Reconciler) : Reconciler :=
  {| Client := Client r; SvcLabels := SvcLabels r;
     SecretLabels := SecretLabels r; CrdResources := CrdResources r;
     CertDir := CertDir r; dnsName := dnsName r; CAName := CAName r;
     CAOrganization := CAOrganization r; RestartOnSecretRefresh := true |}.

Definition r3 : Reconciler := reconciler apiEmpty.
Definition r4 : Reconciler := restarting r0.
Definition r5 : Reconciler := restarting r3.
Definition r6 : Reconciler := reconciler apiBare.

Definition reqOther : ctrl.Request :=
  {| ctrl.NamespacedName :=
       {| types.Namespace := ""; types.Name := "certificates.cert-manager.io" |} |}.
End Cases.

Ltac go_run :=
  unfold mbind, mret, Go_bind, Go_ret, time_Now, rsa_GenerateKey,
    client_Update, panic, os.Exit; simpl.

(** * Facts about the library model *)

Section library_facts.
Implicit Types (b data : bytes) (c root : x509.Certificate).

Lemma chunk_len_nonneg (ch : pem.chunk) : 0 ≤ pem.chunk_len ch.
Proof. destruct ch; simpl; lia. Qed.

Lemma len_nonneg b : 0 ≤ len b.
Proof.
  induction b as [|ch b IH]; simpl; [lia|].
  pose proof (chunk_len_nonneg ch). lia.
Qed.

Lemma find_len_pos b blk rest : pem.find b = Some (blk, rest) → 0 < len b.
Proof.
  induction b as [|[s|blk'] b IH]; simpl; intros H; [done| |].
  - specialize (IH H). lia.
  - pose proof (len_nonneg b). lia.
Qed.

Lemma Decode_Some_len b blk rest : pem.Decode b = (Some blk, rest) → 0 < len b.
Proof.
  unfold pem.Decode. destruct (pem.find b) as [[blk' rest']|] eqn:Hf; [|done].
  intros _. by eapply find_len_pos.
Qed.

Lemma find_blocks b : fst <$> pem.find b = head (tls.blocks b).
Proof. induction b as [|[s|blk] b IH]; simpl; auto. Qed.

Lemma Decode_None_blocks b : (pem.Decode b).1 = None ↔ tls.blocks b = [].
Proof.
  unfold pem.Decode. pose proof (find_blocks b) as H.
  destruct (pem.find b) as [[blk rest]|]; simpl in *.
  - split; [done|]. intros Hb. by rewrite Hb in H.
  - split; [|done]. intros _. by destruct (tls.blocks b).
Qed.

(** A key pair is only accepted when the certificate input holds an
    armored block: the input is then decodable. *)
Lemma X509KeyPair_Decode cert key pair :
  tls.X509KeyPair cert key = inl pair → ∃ blk rest, pem.Decode cert = (Some blk, rest).
Proof.
  unfold tls.X509KeyPair. intros H.
  destruct (pem.Decode cert) as [[blk|] rest] eqn:Hd; [eauto|exfalso].
  assert (tls.blocks cert = []) as Hb by (apply Decode_None_blocks; by rewrite Hd).
  rewrite Hb in H. done.
Qed.

Lemma X509KeyPair_len cert key pair :
  tls.X509KeyPair cert key = inl pair → 0 < len cert ∧ 0 < len key.
Proof.
  intros H. split.
  - destruct (X509KeyPair_Decode _ _ _ H) as (blk & rest & Hd).
    by eapply Decode_Some_len.
  - unfold tls.X509KeyPair in H.
    destruct (map _ _) as [|first ?]; [by destruct (tls.blocks cert)|].
    destruct (pem.Decode key) as [[blk|] rest] eqn:Hd.
    + by eapply Decode_Some_len.
    + assert (tls.blocks key = []) as Hb by (apply Decode_None_blocks; by rewrite Hd).
      rewrite Hb in H. done.
Qed.

Lemma firstCert_Decode b c :
  firstCert b = Some c →
  ∃ blk rest, pem.Decode b = (Some blk, rest) ∧ x509.ParseCertificate (pem.Bytes blk) = inl c.
Proof.
  unfold firstCert. destruct (pem.Decode b) as [[blk|] rest]; [|done].
  destruct (x509.ParseCertificate _) eqn:Hp; [|done]. intros [= <-]. eauto.
Qed.

Lemma ParseCertificate_inl der c :
  x509.ParseCertificate der = inl c →
  der = x509.DERCertificate c ∧ is_Some (x509.PublicKey c).
Proof.
  destruct der; simpl; try done.
  destruct (x509.PublicKey c0) eqn:Hk; [|done]. intros [= <-]. eauto.
Qed.

Lemma checkTime_None c t : x509.checkTime c t = None ↔ inWindow c t.
Proof.
  unfold x509.checkTime, time.Before, time.After, inWindow.
  destruct (Z.ltb_spec t (x509.NotBefore c)); [split; [done|lia]|].
  destruct (Z.ltb_spec (x509.NotAfter c) t); [split; [done|lia]|].
  split; [lia|done].
Qed.

Lemma Verify_single c root host t :
  (x509.Verify c {| x509.DNSName := host; x509.Roots := [root];
                    x509.CurrentTime := t |}).2 = None
  ↔ inWindow c t ∧ (host = "" ∨ host ∈ x509.DNSNames c) ∧ chainsTo c root t.
Proof.
  unfold x509.Verify, chainsTo; simpl.
  destruct (x509.checkTime c t) eqn:Ht.
  { split; [done|]. intros (Hw & _). apply checkTime_None in Hw. congruence. }
  apply checkTime_None in Ht.
  assert ((if bool_decide (host = "") then None else x509.VerifyHostname c host) = None
          ↔ host = "" ∨ host ∈ x509.DNSNames c) as Hhost.
  { unfold x509.VerifyHostname. repeat case_bool_decide; naive_solver. }
  destruct (if bool_decide (host = "") then _ else _) eqn:Hh.
  { split; [done|]. intros (_ & Hx & _). apply Hhost in Hx. done. }
  assert (host = "" ∨ host ∈ x509.DNSNames c) as Hh' by by apply Hhost.
  unfold x509.contains.
  destruct (decide (c = root)) as [->|Hne].
  - rewrite bool_decide_eq_true_2 by set_solver. simpl.
    destruct (x509.permitsServerAuth root); simpl; naive_solver.
  - rewrite bool_decide_eq_false_2 by set_solver. simpl.
    destruct (x509.acceptableRoot c t root); simpl; [|naive_solver].
    destruct (x509.permitsServerAuth c), (x509.permitsServerAuth root);
      simpl; naive_solver.
Qed.

(** [ValidCert] answers [(true, nil)] exactly when both blobs hold a
    certificate, the leaf and the key pair up, and the leaf verifies
    against the CA as sole trust anchor. *)
Lemma ValidCert_true_iff caCert cert key host t :
  ValidCert caCert cert key host t = (true, None)
  ↔ ∃ cac crt pair,
      firstCert caCert = Some cac ∧ firstCert cert = Some crt
      ∧ tls.X509KeyPair cert key = inl pair
      ∧ inWindow crt t ∧ (host = "" ∨ host ∈ x509.DNSNames crt)
      ∧ chainsTo crt cac t.
Proof.
  unfold ValidCert, firstCert. split.
  - destruct (_ || _); [done|].
    destruct (pem.Decode caCert) as [[caDer|] ?]; [|done].
    destruct (x509.ParseCertificate (pem.Bytes caDer)) as [cac|]; [|done].
    destruct (tls.X509KeyPair cert key) as [pair|]; [|done].
    destruct (pem.Decode cert) as [[b|] ?]; [|done].
    destruct (x509.ParseCertificate (pem.Bytes b)) as [crt|]; [|done].
    destruct (x509.Verify _ _) as [chains [err|]] eqn:Hv; [done|].
    intros _. exists cac, crt, pair.
    pose proof (proj1 (Verify_single crt cac host t)) as Hs.
    change (x509.AddCert x509.NewCertPool cac) with [cac] in Hv.
    rewrite Hv in Hs. destruct (Hs eq_refl) as (? & ? & ?). auto 10.
  - intros (cac & crt & pair & Hca & Hcrt & Hpair & Hw & Hh & Hc).
    destruct (X509KeyPair_len _ _ _ Hpair) as [Hl1 Hl2].
    destruct (pem.Decode caCert) as [[caDer|] ?] eqn:Hd; [|done].
    pose proof (Decode_Some_len _ _ _ Hd) as Hl0.
    destruct (Z.eqb_spec (len caCert) 0); [lia|].
    destruct (Z.eqb_spec (len cert) 0); [lia|].
    destruct (Z.eqb_spec (len key) 0); [lia|]. simpl.
    destruct (x509.ParseCertificate (pem.Bytes caDer)); [|done].
    injection Hca as ->. rewrite Hpair.
    destruct (pem.Decode cert) as [[b|] ?]; [|done].
    destruct (x509.ParseCertificate (pem.Bytes b)); [|done].
    injection Hcrt as ->.
    pose proof (proj2 (Verify_single crt cac host t)) as Hs.
    change (x509.AddCert x509.NewCertPool cac) with [cac].
    destruct (x509.Verify _ _) as [chains [err|]]; [|done].
    simpl in Hs. by specialize (Hs (conj Hw (conj Hh Hc))).
Qed.

(** [ValidCert] never answers [true] together with an error, and never
    [false] without one: the branch for an undecodable leaf, which
    would return the nil error of the preceding statement, lies behind
    [tls.X509KeyPair], which has already refused such input. *)
Lemma ValidCert_cases caCert cert key host t :
  ValidCert caCert cert key host t = (true, None)
  ∨ ∃ err, ValidCert caCert cert key host t = (false, Some err).
Proof.
  unfold ValidCert.
  destruct (_ || _); [eauto|].
  destruct (pem.Decode caCert) as [[caDer|] ?]; [|eauto].
  destruct (x509.ParseCertificate (pem.Bytes caDer)) as [cac|]; [|eauto].
  destruct (tls.X509KeyPair cert key) as [pair|] eqn:Hp; [|eauto].
  destruct (X509KeyPair_Decode _ _ _ Hp) as (blk & rest & ->).
  destruct (x509.ParseCertificate (pem.Bytes blk)) as [crt|]; [|eauto].
  destruct (x509.Verify _ _) as [chains [err|]]; eauto.
Qed.

Lemma validAt_true_iff caCert cert key host t :
  validAt caCert cert key host t = true
  ↔ ValidCert caCert cert key host t = (true, None).
Proof.
  unfold validAt.
  destruct (ValidCert_cases caCert cert key host t) as [->|[err ->]]; naive_solver.
Qed.
End library_facts.

(** * What a run of the issuers and of the engine does *)

Section runs.
Context (r : Reconciler).
Implicit Types (w : World) (secret : corev1.Secret).

Lemma lookaheadTime_run w :
  lookaheadTime w = Returned (time.Add (clock w) lookaheadInterval) w.
Proof. reflexivity. Qed.

Lemma validServerCert_run caCert cert key w :
  validServerCert r caCert cert key w
  = Returned (validAt caCert cert key (dnsName r)
                (time.Add (clock w) lookaheadInterval)) w.
Proof.
  unfold validServerCert, validAt. go_run. unfold lookaheadTime. go_run.
  by destruct (ValidCert _ _ _ _ _) as [v [e|]].
Qed.

Lemma validCACert_run cert key w :
  validCACert r cert key w
  = Returned (validAt cert cert key (CAName r)
                (time.Add (clock w) lookaheadInterval)) w.
Proof.
  unfold validCACert, validAt. go_run. unfold lookaheadTime. go_run.
  by destruct (ValidCert _ _ _ _ _) as [v [e|]].
Qed.

Lemma CreateCACert_run begin end_ w :
  CreateCACert r begin end_ w =
  match random w with
  | [] => Returned
            (None, Some (errors.New "crypto/rsa: reading random source failed"))
            (drawn w)
  | k :: _ => Returned (Some (caArtifactsOf r begin end_ k), None) (drawn w)
  end.
Proof.
  unfold CreateCACert, drawn. go_run. by destruct (random w).
Qed.

Lemma CreateCertPEM_run ca begin end_ w :
  CreateCertPEM r (Some ca) begin end_ w =
  match random w with
  | [] => Returned
            ([], [], Some (errors.New "crypto/rsa: reading random source failed"))
            (drawn w)
  | k :: _ =>
      if keyBelongs ca then
        Returned (pemCert (leafCertificate r ca begin end_ k), pemKey k, None)
                 (drawn w)
      else
        Returned ([], [], Some (errors.New
                    "x509: provided PrivateKey doesn't match parent's PublicKey"))
                 (drawn w)
  end.
Proof.
  unfold CreateCertPEM, drawn, keyBelongs. go_run.
  destruct (random w) as [|k rest]; [done|]. simpl.
  unfold x509.CreateCertificate. simpl.
  by destruct (bool_decide _).
Qed.

Lemma writeSecret_run cert key ca secret w :
  writeSecret r cert key (Some ca) secret w =
  Returned (populateSecret cert key ca secret,
            client.Update (Client r) w
              (SecretObject (populateSecret cert key ca secret)))
           (logged (SecretObject (populateSecret cert key ca secret)) w).
Proof. reflexivity. Qed.
End runs.

Section refresh_runs.
Context (r : Reconciler).
Implicit Types (w : World) (secret : corev1.Secret).

Lemma keyBelongs_caArtifactsOf begin end_ k :
  keyBelongs (caArtifactsOf r begin end_ k) = true.
Proof. unfold keyBelongs. apply bool_decide_eq_true_2. by right. Qed.

Lemma refreshCerts_full_run secret w :
  refreshCerts r true secret w =
  match random w with
  | [] => Returned (secret, Some rngError) (drawn w)
  | [k] => Returned (secret, Some rngError) (drawn (drawn w))
  | k :: k' :: _ =>
      let ca := caArtifactsOf r (beginAt w) (endAt w) k in
      let s' := rotated r ca k' w secret in
      Returned (s', client.Update (Client r) (drawn (drawn w)) (SecretObject s'))
               (logged (SecretObject s') (drawn (drawn w)))
  end.
Proof.
  unfold refreshCerts. go_run.
  rewrite CreateCACert_run.
  destruct w as [c rnd u]; simpl.
  destruct rnd as [|k rnd]; [done|]. simpl.
  rewrite CreateCertPEM_run. simpl.
  destruct rnd as [|k' rnd]; [done|].
  rewrite (keyBelongs_caArtifactsOf _ _ k). simpl.
  by destruct (client.Update _ _ _).
Qed.

Lemma refreshCerts_leaf_run secret w :
  refreshCerts r false secret w =
  match buildArtifactsFromSecret secret with
  | (_, Some err) => Returned (secret, Some err) w
  | (None, None) =>
      match random w with
      | [] => Returned (secret, Some rngError) (drawn w)
      | _ :: _ => Panicked nilDereference (drawn w)
      end
  | (Some ca, None) =>
      match random w with
      | [] => Returned (secret, Some rngError) (drawn w)
      | k :: _ =>
          if keyBelongs ca then
            let s' := rotated r ca k w secret in
            Returned (s', client.Update (Client r) (drawn w) (SecretObject s'))
                     (logged (SecretObject s') (drawn w))
          else
            Returned (secret, Some (errors.New
                        "x509: provided PrivateKey doesn't match parent's PublicKey"))
                     (drawn w)
      end
  end.
Proof.
  unfold refreshCerts. go_run.
  destruct (buildArtifactsFromSecret secret) as [[ca|] [err|]]; try done.
  - rewrite CreateCertPEM_run.
    destruct w as [c rnd u]; simpl.
    destruct rnd as [|k rnd]; [done|]. simpl.
    destruct (keyBelongs ca); [|done]. simpl.
    by destruct (client.Update _ _ _).
  - unfold CreateCertPEM. go_run.
    destruct w as [c rnd u]; simpl. by destruct rnd.
Qed.

Lemma refreshCertIfNeeded_run secret w :
  refreshCertIfNeeded r secret w =
  if negb (caValid r secret w) then afterRefresh r (refreshCerts r true secret w)
  else if negb (leafValid r secret w) then afterRefresh r (refreshCerts r false secret w)
  else Returned (secret, (true, None)) w.
Proof.
  unfold refreshCertIfNeeded, caValid, leafValid, afterRefresh.
  unfold mbind at 1, Go_bind at 1.
  destruct (corev1.Data secret) as [data|] eqn:Hdata.
  - unfold mbind at 1, Go_bind at 1. rewrite validCACert_run.
    cbv [mret Go_ret].
    destruct (validAt _ _ _ (CAName r) _); cbv [negb].
    + unfold mbind at 1, Go_bind at 1. rewrite validServerCert_run.
      destruct (validAt _ _ _ (dnsName r) _); cbv [negb]; [done|].
      unfold mbind, Go_bind.
      destruct (refreshCerts r false secret w) as [[s [e|]] w'| |]; try done.
      by destruct (RestartOnSecretRefresh r).
    + unfold mbind, Go_bind.
      destruct (refreshCerts r true secret w) as [[s [e|]] w'| |]; try done.
      by destruct (RestartOnSecretRefresh r).
  - cbv [mret Go_ret negb]. unfold mbind, Go_bind.
    destruct (refreshCerts r true secret w) as [[s [e|]] w'| |]; try done.
    by destruct (RestartOnSecretRefresh r).
Qed.
End refresh_runs.

(** ** What [populateSecret] stores *)
Section populate.
Context (cert key : bytes) (ca : KeyPairArtifacts) (secret : corev1.Secret).

Lemma index_lookupData s k : corev1.index s k = default [] (lookupData s k).
Proof. unfold corev1.index, lookupData. by destruct (corev1.Data s). Qed.

Lemma populateSecret_lookup k :
  lookupData (populateSecret cert key ca secret) k =
  if decide (k = keyName) then Some key
  else if decide (k = certName) then Some cert
  else if decide (k = caKeyName) then Some (KeyPEM ca)
  else if decide (k = caCertName) then Some (CertPEM ca)
  else lookupData secret k.
Proof.
  unfold lookupData, populateSecret. simpl.
  repeat case_decide; subst.
  - by rewrite lookup_insert_eq.
  - rewrite lookup_insert_ne by done. by rewrite lookup_insert_eq.
  - rewrite !(lookup_insert_ne _ keyName), !(lookup_insert_ne _ certName) by done.
    by rewrite lookup_insert_eq.
  - rewrite !(lookup_insert_ne _ keyName), !(lookup_insert_ne _ certName),
      !(lookup_insert_ne _ caKeyName) by done.
    by rewrite lookup_insert_eq.
  - rewrite !lookup_insert_ne by done.
    by destruct (corev1.Data secret).
Qed.

Lemma populateSecret_caCert :
  corev1.index (populateSecret cert key ca secret) caCertName = CertPEM ca.
Proof. by rewrite index_lookupData, populateSecret_lookup. Qed.

Lemma populateSecret_caKey :
  corev1.index (populateSecret cert key ca secret) caKeyName = KeyPEM ca.
Proof. by rewrite index_lookupData, populateSecret_lookup. Qed.

Lemma populateSecret_cert :
  corev1.index (populateSecret cert key ca secret) certName = cert.
Proof. by rewrite index_lookupData, populateSecret_lookup. Qed.

Lemma populateSecret_key :
  corev1.index (populateSecret cert key ca secret) keyName = key.
Proof. by rewrite index_lookupData, populateSecret_lookup. Qed.

Lemma populateSecret_Data : is_Some (corev1.Data (populateSecret cert key ca secret)).
Proof. by eexists. Qed.
End populate.

(** * The validity check *)

(** C8. Whenever the leaf certificate blob holds no decodable PEM block,
    [ValidCert] answers [false] together with a non-nil error.  When
    the other inputs are in order (nothing empty, a CA certificate that
    parses), that error is the report of the malformed leaf by
    [tls.X509KeyPair]; the later [pem.Decode] test of [ValidCert] is
    never the one that fires. *)
Theorem C8_undecodable_leaf_is_an_error
    (caCert cert key : bytes) (dnsName : string) (t : time.Time) :
  (pem.Decode cert).1 = None →
  (∃ err, ValidCert caCert cert key dnsName t = (false, Some err))
  ∧ (len caCert ≠ 0 → len cert ≠ 0 → len key ≠ 0 → is_Some (firstCert caCert) →
     ValidCert caCert cert key dnsName t
     = (false, Some (errors.New "tls: failed to find any PEM data in certificate input"))).
Proof.
  intros Hnone. split.
  - destruct (ValidCert_cases caCert cert key dnsName t) as [Hv|Hv]; [|done].
    apply ValidCert_true_iff in Hv as (cac & crt & pair & _ & Hcrt & _).
    apply firstCert_Decode in Hcrt as (blk & rest & Hd & _).
    by rewrite Hd in Hnone.
  - intros H1 H2 H3 [cac Hca]. unfold ValidCert.
    destruct (Z.eqb_spec (len caCert) 0); [done|].
    destruct (Z.eqb_spec (len cert) 0); [done|].
    destruct (Z.eqb_spec (len key) 0); [done|]. simpl.
    apply firstCert_Decode in Hca as (blk & rest & -> & ->).
    apply Decode_None_blocks in Hnone.
    unfold tls.X509KeyPair. by rewrite Hnone.
Qed.

(** * The PEM codec *)

(** C9. [pemEncode] never fails.  Decoding the certificate blob gives
    back exactly the DER bytes that were encoded, decoding the key blob
    and parsing it as PKCS #1 gives back the key, and for the DER of a
    well-formed certificate [buildArtifactsFromSecret] rebuilds, from a
    secret holding the two blobs, the certificate and the key. *)
Theorem C9_pem_round_trip (der : x509.DER) (key : rsa.PrivateKey) :
  ∃ certPEM keyPEM,
    pemEncode der key = (certPEM, keyPEM, None)
    ∧ pem.Decode certPEM = (Some {| pem.Type_ := "CERTIFICATE"; pem.Bytes := der |}, [])
    ∧ (∃ blk, pem.Decode keyPEM = (Some blk, [])
              ∧ x509.ParsePKCS1PrivateKey (pem.Bytes blk) = inl key)
    ∧ ∀ c meta data,
        x509.ParseCertificate der = inl c →
        buildArtifactsFromSecret
          {| corev1.SecretMeta := meta;
             corev1.Data := Some (<[caCertName := certPEM]> (<[caKeyName := keyPEM]> data)) |}
        = (Some {| Cert := c; Key := key; CertPEM := certPEM; KeyPEM := keyPEM |}, None).
Proof.
  eexists _, _. split; [reflexivity|]. split; [reflexivity|].
  split; [eexists; split; reflexivity|].
  intros c meta data Hparse. unfold buildArtifactsFromSecret. simpl.
  rewrite lookup_insert_eq.
  rewrite lookup_insert_ne by done. rewrite lookup_insert_eq. simpl.
  by rewrite Hparse.
Qed.

(** * The issuers *)



(** * Reconciliation *)

(** C10. When the services found for the configured labels are not
    exactly one (none at all included), [updateCRD] stops before any
    certificate work with the error "multiple services match labels";
    when exactly one service but not exactly one secret was found, with
    "multiple secrets match labels".  The world is left as it was: no
    key drawn, no [Update] issued. *)
Theorem C10_not_exactly_one_match
    (r : Reconciler) (req : ctrl.Request) (w : World) (svcs : list corev1.Service) :
  client.ListServices (Client r) w (SvcLabels r) = inl svcs →
  (length svcs ≠ 1%nat →
   updateCRD r req w
   = Returned (r, Some (errors.New "multiple services match labels")) w)
  ∧ (length svcs = 1%nat →
     ∀ secrets, client.ListSecrets (Client r) w (SecretLabels r) = inl secrets →
       length secrets ≠ 1%nat →
       updateCRD r req w
       = Returned (r, Some (errors.New "multiple secrets match labels")) w).
Proof.
  intros Hsvc. unfold updateCRD, client_ListServices, client_ListSecrets.
  unfold mbind, Go_bind, mret, Go_ret. rewrite Hsvc. split.
  - intros Hlen. destruct (Z.eqb_spec (Z.of_nat (length svcs)) 1); [lia|done].
  - intros Hlen secrets Hsec Hlen'.
    destruct (Z.eqb_spec (Z.of_nat (length svcs)) 1); [|lia]. simpl.
    rewrite Hsec.
    destruct (Z.eqb_spec (Z.of_nat (length secrets)) 1); [lia|done].
Qed.

(** * The rotation engine *)

Section engine_facts.
Context (r : Reconciler).
Implicit Types (w : World) (secret : corev1.Secret).

Lemma buildArtifacts_Some secret ca :
  buildArtifactsFromSecret secret = (Some ca, None) →
  lookupData secret caCertName = Some (CertPEM ca)
  ∧ lookupData secret caKeyName = Some (KeyPEM ca)
  ∧ firstCert (CertPEM ca) = Some (Cert ca)
  ∧ ∃ blk rest, pem.Decode (KeyPEM ca) = (Some blk, rest)
                ∧ x509.ParsePKCS1PrivateKey (pem.Bytes blk) = inl (Key ca).
Proof.
  unfold buildArtifactsFromSecret, lookupData, firstCert.
  destruct (corev1.Data secret ≫= _) as [caPem|]; [|done].
  destruct (corev1.Data secret ≫= _) as [keyPem|]; [|done].
  destruct (pem.Decode caPem) as [[caDer|] ?] eqn:Hd; [|done].
  destruct (x509.ParseCertificate _) as [caCert|] eqn:Hp; [|done].
  destruct (pem.Decode keyPem) as [[keyDer|] ?] eqn:Hk; [|done].
  destruct (x509.ParsePKCS1PrivateKey _) as [key|] eqn:Hpk; [|done].
  intros [= <-]. simpl. rewrite Hd, Hp. eauto 10.
Qed.

Lemma firstCert_pemCert c :
  is_Some (x509.PublicKey c) → firstCert (pemCert c) = Some c.
Proof. intros [pub Hpub]. unfold firstCert. simpl. by rewrite Hpub. Qed.

Lemma X509KeyPair_pem c k :
  x509.PublicKey c = Some (rsa.Public k) →
  tls.X509KeyPair (pemCert c) (pemKey k)
  = inl {| tls.Certificate_ := [x509.DERCertificate c]; tls.PrivateKey := k |}.
Proof.
  intros Hpub. unfold tls.X509KeyPair. simpl.
  repeat (rewrite Hpub; simpl). by rewrite Z.eqb_refl.
Qed.

(** What any successful issue under [ca] stores is a complete bundle. *)
Lemma rotated_complete ca k w secret :
  firstCert (CertPEM ca) = Some (Cert ca) →
  keyBelongs ca = true →
  completeBundle (rotated r ca k w secret).
Proof.
  intros Hca Hk. unfold completeBundle, rotated.
  rewrite !populateSecret_lookup,
    populateSecret_caCert, populateSecret_cert, populateSecret_key. simpl.
  do 4 (split; [by eexists|]).
  apply firstCert_Decode in Hca as Hca'.
  destruct Hca' as (blk & rest & _ & Hp).
  apply ParseCertificate_inl in Hp as [_ [pub Hpub]].
  eexists (Cert ca), _, _. split; [done|].
  split; [by apply firstCert_pemCert|].
  split; [done|]. split.
  - apply bool_decide_eq_true in Hk as [Hk|Hk]; simpl; congruence.
  - by apply X509KeyPair_pem.
Qed.

Lemma caArtifactsOf_firstCert begin end_ k :
  firstCert (CertPEM (caArtifactsOf r begin end_ k))
  = Some (Cert (caArtifactsOf r begin end_ k)).
Proof. reflexivity. Qed.
End engine_facts.

(** C6. A rotation pass either leaves the secret as it was and issues no
    [Update] at all, or issues exactly one [Update], whose payload is
    the new secret and holds the complete bundle: CA certificate, CA
    key, leaf certificate and leaf key, fitting together.  (This holds
    however the pass ends, also when the [Update] is refused or when
    the process exits after the refresh.) *)
Theorem C6_one_update_with_the_whole_bundle
    (r : Reconciler) (secret : corev1.Secret) (w : World) :
  let o := refreshCertIfNeeded r secret w in
  noUpdate secret w o
  ∨ ∃ payload, oneUpdate payload w o ∧ completeBundle payload.
Proof.
  unfold noUpdate, oneUpdate. simpl. rewrite refreshCertIfNeeded_run.
  destruct (caValid r secret w); simpl; [destruct (leafValid r secret w); simpl|].
  - left. split; [done|]. by intros s' res w' [= <- _ _].
  - rewrite refreshCerts_leaf_run.
    destruct (buildArtifactsFromSecret secret) as [[ca|] [err|]] eqn:Hb.
    + left. split; [done|]. by intros s' res w' [= <- _ _].
    + apply buildArtifacts_Some in Hb as (_ & _ & Hca & _).
      destruct (random w) as [|k rest] eqn:Hrnd; simpl.
      { left. split; [done|]. by intros s' res w' [= <- _ _]. }
      destruct (keyBelongs ca) eqn:Hk; simpl.
      * right. exists (rotated r ca k w secret).
        split; [split|by apply rotated_complete].
        -- destruct (client.Update _ _ _); simpl; [done|].
           by destruct (RestartOnSecretRefresh r).
        -- destruct (client.Update _ _ _); simpl.
           ++ by intros s' res w' [= <- _ _].
           ++ destruct (RestartOnSecretRefresh r); [done|].
              by intros s' res w' [= <- _ _].
      * left. split; [done|]. by intros s' res w' [= <- _ _].
    + left. split; [done|]. by intros s' res w' [= <- _ _].
    + left. destruct (random w); simpl; (split; [done|]); [|done].
      by intros s' res w' [= <- _ _].
  - rewrite refreshCerts_full_run.
    destruct (random w) as [|k [|k' rest]] eqn:Hrnd; simpl.
    + left. split; [done|]. by intros s' res w' [= <- _ _].
    + left. split; [done|]. by intros s' res w' [= <- _ _].
    + right. eexists. split; [split|].
      * destruct (client.Update _ _ _); simpl; [done|].
        by destruct (RestartOnSecretRefresh r).
      * destruct (client.Update _ _ _); simpl.
        -- by intros s' res w' [= <- _ _].
        -- destruct (RestartOnSecretRefresh r); [done|].
           by intros s' res w' [= <- _ _].
      * apply rotated_complete; [done|]. apply keyBelongs_caArtifactsOf.
Qed.


(** When, in a leaf-only rotation, the CA artifacts cannot be rebuilt
    from the stored blobs, [buildArtifactsFromSecret]'s error is
    returned by [refreshCerts] to the engine, the pass ends there with
    the secret and the world untouched (no key drawn, no [Update]), and
    the engine answers its own caller [false] with a nil error. *)
Lemma failed_reconstruction_is_swallowed
    (r : Reconciler) (secret : corev1.Secret) (w : World)
    (a : option KeyPairArtifacts) (err : error) :
  caValid r secret w = true → leafValid r secret w = false →
  buildArtifactsFromSecret secret = (a, Some err) →
  refreshCerts r false secret w = Returned (secret, Some err) w
  ∧ refreshCertIfNeeded r secret w = Returned (secret, (false, None)) w.
Proof.
  intros Hca Hleaf Hb.
  assert (refreshCerts r false secret w = Returned (secret, Some err) w) as Hrun.
  { rewrite refreshCerts_leaf_run, Hb. by destruct a. }
  split; [done|].
  by rewrite refreshCertIfNeeded_run, Hca, Hleaf, Hrun.
Qed.

(** ** Validity of a chain at the lookahead time *)

Section chain_facts.
Context (caCert cert key : bytes) (host : string) (cac crt : x509.Certificate).
Context (Hchain : SignedChain caCert cert key host cac crt).

Lemma chain_chainsTo t : chainsTo crt cac t ↔ (crt = cac ∨ inWindow cac t).
Proof.
  pose proof Hchain as [_ _ _ _ Hiss Hsig [Hu1 Hu2]].
  unfold chainsTo, x509.acceptableRoot. rewrite <- checkTime_None.
  destruct (decide (crt = cac)) as [->|Hne]; [naive_solver|].
  rewrite !andb_true_iff, !bool_decide_eq_true. naive_solver.
Qed.

Lemma chain_valid_iff t :
  ValidCert caCert cert key host t = (true, None) ↔ inWindow crt t ∧ inWindow cac t.
Proof.
  rewrite ValidCert_true_iff. split.
  - intros (cac' & crt' & pair & Hca & Hcrt & _ & Hw & _ & Hc).
    rewrite (chain_ca _ _ _ _ _ _ Hchain) in Hca.
    rewrite (chain_leaf _ _ _ _ _ _ Hchain) in Hcrt.
    injection Hca as <-. injection Hcrt as <-.
    split; [done|]. apply chain_chainsTo in Hc as [Heq|Hc]; [|done].
    by rewrite <- Heq.
  - intros [Hw1 Hw2]. destruct (chain_pair _ _ _ _ _ _ Hchain) as [pair Hpair].
    exists cac, crt, pair.
    split; [apply Hchain|]. split; [apply Hchain|]. split; [done|].
    split; [done|]. split; [right; apply Hchain|].
    apply chain_chainsTo. by right.
Qed.
End chain_facts.


(** ** Stability of what the engine issues *)

Section stability.
Context (r : Reconciler).
Implicit Types (w : World) (secret : corev1.Secret).

Lemma lookahead_in_issued_window w w1 :
  clock w1 = clock w →
  beginAt w ≤ time.Add (clock w1) lookaheadInterval ≤ endAt w.
Proof.
  intros ->. unfold beginAt, endAt, time.Add, lookaheadInterval,
    certValidityDuration, time.Hour, time.Second. lia.
Qed.

Lemma issued_CA_valid begin end_ k t :
  begin ≤ t ≤ end_ →
  ValidCert (pemCert (caCertificate r begin end_ k))
            (pemCert (caCertificate r begin end_ k)) (pemKey k) (CAName r) t
  = (true, None).
Proof.
  intros Ht. apply ValidCert_true_iff.
  eexists (caCertificate r begin end_ k), (caCertificate r begin end_ k), _.
  split; [reflexivity|]. split; [reflexivity|].
  split; [by apply X509KeyPair_pem|]. split; [done|].
  split; [right; simpl; set_solver|].
  unfold chainsTo. by rewrite decide_True.
Qed.

Lemma issued_leaf_chain ca caPem begin end_ k :
  firstCert caPem = Some (Cert ca) → keyBelongs ca = true →
  x509.canSign (Cert ca) = true → x509.permitsServerAuth (Cert ca) = true →
  SignedChain caPem (pemCert (leafCertificate r ca begin end_ k)) (pemKey k)
              (dnsName r) (Cert ca) (leafCertificate r ca begin end_ k).
Proof.
  intros Hca Hk Hsign Huse.
  apply firstCert_Decode in Hca as Hca'.
  destruct Hca' as (blk & rest & _ & Hp).
  apply ParseCertificate_inl in Hp as [_ [pub Hpub]].
  split; try done.
  - eexists. by apply X509KeyPair_pem.
  - simpl. set_solver.
  - unfold x509.CheckSignatureFrom. rewrite Hsign. simpl.
    rewrite bool_decide_eq_true_2; [done|]. split; [by eexists|].
    apply bool_decide_eq_true in Hk as [Hk|Hk]; congruence.
Qed.

Lemma caValid_inv secret w :
  caValid r secret w = true →
  is_Some (corev1.Data secret)
  ∧ ∃ cac, firstCert (corev1.index secret caCertName) = Some cac
           ∧ inWindow cac (time.Add (clock w) lookaheadInterval)
           ∧ x509.permitsServerAuth cac = true.
Proof.
  unfold caValid. destruct (corev1.Data secret); [|done]. intros Hv.
  split; [by eexists|].
  apply validAt_true_iff, ValidCert_true_iff in Hv
    as (cac & crt & pair & Hca & Hcrt & _ & Hw & _ & Hc).
  rewrite Hca in Hcrt. injection Hcrt as <-.
  exists cac. unfold chainsTo in Hc. by rewrite decide_True in Hc.
Qed.

(** A secret both of whose checks pass is left alone. *)
Lemma valid_secret_is_stable secret w :
  caValid r secret w = true → leafValid r secret w = true →
  refreshCertIfNeeded r secret w = Returned (secret, (true, None)) w.
Proof. intros Hca Hleaf. by rewrite refreshCertIfNeeded_run, Hca, Hleaf. Qed.

Lemma rotated_full_valid k k' w secret w1 :
  clock w1 = clock w →
  let s1 := rotated r (caArtifactsOf r (beginAt w) (endAt w) k) k' w secret in
  caValid r s1 w1 = true ∧ leafValid r s1 w1 = true.
Proof.
  intros Hclock s1. pose proof (lookahead_in_issued_window w w1 Hclock) as Ht.
  unfold caValid, leafValid, s1, rotated.
  rewrite populateSecret_caCert, populateSecret_caKey,
    populateSecret_cert, populateSecret_key. simpl. split.
  - apply validAt_true_iff. by apply issued_CA_valid.
  - apply validAt_true_iff.
    pose proof (issued_leaf_chain (caArtifactsOf r (beginAt w) (endAt w) k)
                  (pemCert (caCertificate r (beginAt w) (endAt w) k))
                  (beginAt w) (endAt w) k'
                  eq_refl (keyBelongs_caArtifactsOf r _ _ k) eq_refl eq_refl)
      as Hchain.
    by apply (chain_valid_iff _ _ _ _ _ _ Hchain).
Qed.

Lemma rotated_leaf_valid ca k w secret w1 :
  clock w1 = clock w →
  caValid r secret w = true →
  buildArtifactsFromSecret secret = (Some ca, None) →
  keyBelongs ca = true →
  x509.canSign (Cert ca) = true →
  let s1 := rotated r ca k w secret in
  caValid r s1 w1 = true ∧ leafValid r s1 w1 = true.
Proof.
  intros Hclock Hca Hb Hk Hsign s1.
  pose proof (lookahead_in_issued_window w w1 Hclock) as Ht.
  apply buildArtifacts_Some in Hb as (HcaPem & HkeyPem & Hcert & _).
  pose proof (caValid_inv _ _ Hca) as ([data Hdata] & cac & Hcac & Hw & Huse).
  rewrite index_lookupData, HcaPem in Hcac. simpl in Hcac.
  rewrite Hcert in Hcac. injection Hcac as <-.
  unfold caValid, leafValid, s1, rotated in *.
  rewrite populateSecret_caCert, populateSecret_caKey,
    populateSecret_cert, populateSecret_key. simpl.
  rewrite Hdata, !index_lookupData, HcaPem, HkeyPem, <- Hclock in Hca.
  split; [done|].
  apply validAt_true_iff.
  pose proof (issued_leaf_chain ca (CertPEM ca) (beginAt w) (endAt w) k
                Hcert Hk Hsign Huse) as Hchain.
  apply (chain_valid_iff _ _ _ _ _ _ Hchain). split; [done|].
  by rewrite Hclock.
Qed.

(** How a pass that reports success (or exits after its refresh) came
    to its secret. *)
Lemma pass_success_inv secret w s1 w1 :
  refreshCertIfNeeded r secret w = Returned (s1, (true, None)) w1
  ∨ (∃ code, refreshCertIfNeeded r secret w = Exited code w1
             ∧ last (updates w1) = Some (SecretObject s1)) →
  clock w1 = clock w
  ∧ ((s1 = secret ∧ w1 = w
      ∧ caValid r secret w = true ∧ leafValid r secret w = true)
     ∨ (∃ k k', s1 = rotated r (caArtifactsOf r (beginAt w) (endAt w) k) k' w secret)
     ∨ (∃ ca k, s1 = rotated r ca k w secret
                ∧ caValid r secret w = true
                ∧ buildArtifactsFromSecret secret = (Some ca, None)
                ∧ keyBelongs ca = true)).
Proof.
  rewrite refreshCertIfNeeded_run.
  destruct (caValid r secret w) eqn:Hca; simpl;
    [destruct (leafValid r secret w) eqn:Hleaf; simpl|].
  - intros [[= <- <-]|(code & [=] & _)]. split; [done|]. by left.
  - rewrite refreshCerts_leaf_run.
    destruct (buildArtifactsFromSecret secret) as [[ca|] [err|]] eqn:Hb;
      try (intros [[=]|(code & [=] & _)]; fail).
    + destruct (random w) as [|k rest]; simpl;
        [intros [[=]|(code & [=] & _)]|].
      destruct (keyBelongs ca) eqn:Hk; simpl;
        [|intros [[=]|(code & [=] & _)]].
      destruct (client.Update _ _ _); simpl;
        [intros [[=]|(code & [=] & _)]|].
      destruct (RestartOnSecretRefresh r).
      * intros [[=]|(code & [= <- <-] & Hlast)]. simpl in Hlast.
        rewrite last_snoc in Hlast. injection Hlast as <-.
        split; [done|]. right; right. eauto 10.
      * intros [[= <- <-]|(code & [=] & _)].
        split; [done|]. right; right. eauto 10.
    + destruct (random w); simpl; intros [[=]|(code & [=] & _)].
  - rewrite refreshCerts_full_run.
    destruct (random w) as [|k [|k' rest]]; simpl;
      try (intros [[=]|(code & [=] & _)]; fail).
    destruct (client.Update _ _ _); simpl;
      [intros [[=]|(code & [=] & _)]|].
    destruct (RestartOnSecretRefresh r).
    + intros [[=]|(code & [= <- <-] & Hlast)]. simpl in Hlast.
      rewrite last_snoc in Hlast. injection Hlast as <-.
      split; [done|]. right; left. eauto.
    + intros [[= <- <-]|(code & [=] & _)].
      split; [done|]. right; left. eauto.
Qed.
End stability.


(** * The statements on concrete bundles *)

Section concrete.
Import Scenario.








(** C7 does not hold of the code.  The CA key of this bundle is stored
    in PKCS #8 form, which the CA check accepts and
    [buildArtifactsFromSecret] does not.  In the leaf-only rotation
    that follows, [refreshCerts] returns the error to the engine, the
    pass is aborted and nothing is touched; but the engine hands its
    caller a nil error, and [updateCRD] goes on to update the CRD and
    reports success. *)
Theorem C7_error_is_not_reported :
  caValid r0 pkcs8Secret w1000 = true
  ∧ leafValid r0 pkcs8Secret w1000 = false
  ∧ buildArtifactsFromSecret pkcs8Secret
    = (None, Some (errors.New "x509: failed to parse private key (use ParsePKCS8PrivateKey instead for this key format)"))
  ∧ refreshCerts r0 false pkcs8Secret w1000
    = Returned (pkcs8Secret,
                Some (errors.New "x509: failed to parse private key (use ParsePKCS8PrivateKey instead for this key format)"))
               w1000
  ∧ refreshCertIfNeeded r0 pkcs8Secret w1000 = Returned (pkcs8Secret, (false, None)) w1000
  ∧ (∃ crd, updateCRD r2 req0 w1000
            = Returned (r2, None) (logged (UnstructuredObject crd) w1000)).
Proof.
  assert (caValid r0 pkcs8Secret w1000 = true) as H1 by (vm_compute; reflexivity).
  assert (leafValid r0 pkcs8Secret w1000 = false) as H2 by (vm_compute; reflexivity).
  assert (buildArtifactsFromSecret pkcs8Secret
          = (None, Some (errors.New "x509: failed to parse private key (use ParsePKCS8PrivateKey instead for this key format)")))
    as H3 by reflexivity.
  destruct (failed_reconstruction_is_swallowed r0 pkcs8Secret w1000 _ _ H1 H2 H3)
    as [H4 H5].
  do 5 (split; [done|]).
  eexists. vm_compute. reflexivity.
Qed.

(** C8, on concrete data: a leaf blob that is plain text. *)
Lemma C8_witness :
ValidCert (CertPEM ca0) noPEM (pemKey k2) host (1000 * day)
= (false, Some (errors.New "tls: failed to find any PEM data in certificate input")).
Proof.
apply (C8_undecodable_leaf_is_an_error (CertPEM ca0) noPEM (pemKey k2) host (1000 * day)).
- reflexivity.
- vm_compute. discriminate.
- vm_compute. discriminate.
- vm_compute. discriminate.
- by eexists.
Defined.

(** C9, on concrete data. *)
Lemma C9_witness :
buildArtifactsFromSecret
  (secretOf (Some (<[caCertName := (pemEncode (x509.DERCertificate (Cert ca0)) k1).1.1]>
                  (<[caKeyName := (pemEncode (x509.DERCertificate (Cert ca0)) k1).1.2]> ∅))))
= (Some {| Cert := Cert ca0; Key := k1;
           CertPEM := (pemEncode (x509.DERCertificate (Cert ca0)) k1).1.1;
           KeyPEM := (pemEncode (x509.DERCertificate (Cert ca0)) k1).1.2 |}, None).
Proof.
destruct (C9_pem_round_trip (x509.DERCertificate (Cert ca0)) k1)
  as (certPEM & keyPEM & Henc & _ & _ & Hbuild).
rewrite Henc. simpl. apply Hbuild. reflexivity.
Defined.

(** C10, on concrete data: no service at all; one service and no secret. *)
Lemma C10_witness :
updateCRD r0 req0 w0
= Returned (r0, Some (errors.New "multiple services match labels")) w0
∧ updateCRD r1 req0 w0
  = Returned (r1, Some (errors.New "multiple secrets match labels")) w0.
Proof.
split.
- apply (proj1 (C10_not_exactly_one_match r0 req0 w0 [] eq_refl)). simpl. lia.
- apply (proj2 (C10_not_exactly_one_match r1 req0 w0
                  [ {| corev1.ServiceMeta := meta |} ] eq_refl) eq_refl [] eq_refl).
  simpl. lia.
Defined.

End concrete.

(** * Further properties of the controller *)

(** ** Selecting the resources to reconcile *)

Lemma contains_elem_of (s : list string) (e : string) :
  contains s e = true ↔ e ∈ s.
Proof.
  induction s as [|a s IH]; simpl.
  - split; [done|]. by intros ?%elem_of_nil.
  - case_bool_decide as Ha.
    + subst. split; [|done]. intros _. by left.
    + rewrite IH, elem_of_cons. naive_solver.
Qed.

(** X1. [contains] is list membership: it answers true exactly for the
    strings that occur in the slice, whatever their position and
    however often they occur. *)
Theorem X1_contains_is_membership (s : list string) (e : string) :
  (contains s e = true ↔ e ∈ s)
  ∧ (contains s e = false ↔ e ∉ s)
  ∧ ∀ s', contains (s ++ s') e = contains s e || contains s' e.
Proof.
  split; [apply contains_elem_of|]. split.
  - rewrite <- contains_elem_of. by destruct (contains s e).
  - intros s'. induction s as [|a s IH]; simpl; [done|].
    by case_bool_decide.
Qed.

(** X2. [Reconcile] leaves alone every resource that is not listed in
    [CrdResources]: it answers no error without calling the API
    server, the reconciler and the world are as before.  For a listed
    resource it ends as [updateCRD] ends, handing on the reconciler and
    the error, nil or not, unchanged. *)
Theorem X2_Reconcile_only_listed_resources
    (r : Reconciler) (req : ctrl.Request) (w : World) :
  (types.Name (ctrl.NamespacedName req) ∉ CrdResources r →
   Reconcile r req w = Returned (r, ({| ctrl.Requeue := false |}, None)) w)
  ∧ (types.Name (ctrl.NamespacedName req) ∈ CrdResources r →
     Reconcile r req w =
     match updateCRD r req w with
     | Returned (r', err) w' => Returned (r', ({| ctrl.Requeue := false |}, err)) w'
     | Exited code w' => Exited code w'
     | Panicked msg w' => Panicked msg w'
     end).
Proof.
  unfold Reconcile. split; intros Hin.
  - destruct (contains _ _) eqn:Hc; [|done].
    apply contains_elem_of in Hc. done.
  - apply contains_elem_of in Hin. rewrite Hin.
    unfold mbind, Go_bind, mret, Go_ret.
    by destruct (updateCRD r req w) as [[r' [err|]] w'| |].
Qed.

(** ** Webhook descriptions *)

Lemma ConvertToWebhookInfo_range_spec (items : list string) :
  ∀ (p : nat) (info : list WebhookInfo),
    length info = (p + length items)%nat →
    ConvertToWebhookInfo_range p items info
    = (take p info ++ map (λ v, {| Name := v; Type_ := CRDConversion |}) items)%list.
Proof.
  induction items as [|v items IH]; intros p info Hlen; simpl in *.
  - rewrite Nat.add_0_r in Hlen. by rewrite <- Hlen, firstn_all, app_nil_r.
  - rewrite IH by (rewrite length_insert; lia).
    rewrite (take_S_r _ _ {| Name := v; Type_ := CRDConversion |}).
    + rewrite take_insert_ge by lia. by rewrite <- app_assoc.
    + apply list_lookup_insert_eq. lia.
Qed.

(** X3. [ConvertToWebhookInfo] describes every resource of
    [CrdResources], in order, as a CRD conversion webhook of that name:
    no slot of the preallocated slice keeps its zero value, and the
    result is as long as [CrdResources]. *)
Theorem X3_ConvertToWebhookInfo_describes_every_resource (r : Reconciler) :
  ConvertToWebhookInfo r
  = map (λ v, {| Name := v; Type_ := CRDConversion |}) (CrdResources r)
  ∧ length (ConvertToWebhookInfo r) = length (CrdResources r)
  ∧ ∀ (p : nat) (v : string),
      CrdResources r !! p = Some v →
      ConvertToWebhookInfo r !! p = Some {| Name := v; Type_ := CRDConversion |}.
Proof.
  assert (ConvertToWebhookInfo r
          = map (λ v, {| Name := v; Type_ := CRDConversion |}) (CrdResources r)) as Heq.
  { unfold ConvertToWebhookInfo.
    rewrite ConvertToWebhookInfo_range_spec by (by rewrite length_replicate).
    done. }
  split; [done|]. rewrite Heq. split; [by rewrite length_map|].
  intros p v Hp. by rewrite list_lookup_fmap, Hp.
Qed.

(** ** Patching the conversion webhook *)

Section unstructured_facts.
Implicit Types (obj m : unstructured.object) (v : unstructured.value)
  (path p : list string).

Lemma get_set_eq k v m : unstructured.get k (unstructured.set k v m) = Some v.
Proof.
  induction m as [|[k' v'] m IH]; simpl.
  - by rewrite bool_decide_eq_true_2.
  - case_bool_decide as Hk; simpl.
    + by rewrite bool_decide_eq_true_2.
    + by rewrite bool_decide_eq_false_2.
Qed.

Lemma get_set_ne k k' v m :
  k ≠ k' → unstructured.get k' (unstructured.set k v m) = unstructured.get k' m.
Proof.
  intros Hne. induction m as [|[k0 v0] m IH]; simpl.
  - by rewrite bool_decide_eq_false_2.
  - case_bool_decide as Hk; simpl.
    + subst. by rewrite !bool_decide_eq_false_2.
    + by rewrite IH.
Qed.

(** [SetNestedField] unfolded at a path of at least two fields. *)
Lemma SetNestedField_cons obj v field field' rest :
  unstructured.SetNestedField obj v (field :: field' :: rest) =
  match unstructured.get field obj with
  | Some (unstructured.Map m) =>
      match unstructured.SetNestedField m v (field' :: rest) with
      | (m', None) => (unstructured.set field (unstructured.Map m') obj, None)
      | (_, Some err) => (obj, Some err)
      end
  | Some _ =>
      (obj, Some (errors.New "value cannot be set because the path is not a map[string]interface{}"))
  | None =>
      match unstructured.SetNestedField [] v (field' :: rest) with
      | (m', None) => (unstructured.set field (unstructured.Map m') obj, None)
      | (_, Some err) => (obj, Some err)
      end
  end.
Proof. reflexivity. Qed.

(** A successful set can be read back at the same path. *)
Lemma SetNestedField_read path : ∀ obj v obj',
  path ≠ [] →
  unstructured.SetNestedField obj v path = (obj', None) →
  unstructured.NestedFieldNoCopy (unstructured.Map obj') path = (Some v, true, None).
Proof.
  induction path as [|field [|field' rest] IH]; intros obj v obj' Hne Hset; [done| |].
  - simpl in Hset. injection Hset as <-. simpl. by rewrite get_set_eq.
  - rewrite SetNestedField_cons in Hset.
    change (unstructured.NestedFieldNoCopy (unstructured.Map obj') (field :: field' :: rest))
      with (match unstructured.get field obj' with
            | Some v0 => unstructured.NestedFieldNoCopy v0 (field' :: rest)
            | None => (None, false, None)
            end).
    destruct (unstructured.get field obj) as [[?|?|m]|] eqn:Hg; try done.
    + destruct (unstructured.SetNestedField m v (field' :: rest)) as [m' [err|]] eqn:Hm;
        [done|].
      injection Hset as <-. rewrite get_set_eq. by eapply IH.
    + destruct (unstructured.SetNestedField [] v (field' :: rest)) as [m' [err|]] eqn:Hm;
        [done|].
      injection Hset as <-. rewrite get_set_eq. by eapply IH.
Qed.

(** A successful set does not touch what lies beside its path: a path
    that leaves the set path at some field reads as before. *)
Lemma SetNestedField_frame p : ∀ obj v obj' k1 k2 s1 s2,
  k1 ≠ k2 →
  unstructured.SetNestedField obj v (p ++ k2 :: s2) = (obj', None) →
  unstructured.NestedFieldNoCopy (unstructured.Map obj') (p ++ k1 :: s1)
  = unstructured.NestedFieldNoCopy (unstructured.Map obj) (p ++ k1 :: s1).
Proof.
  induction p as [|field p IH]; intros obj v obj' k1 k2 s1 s2 Hne Hset.
  - simpl app in *.
    assert (∃ x, obj' = unstructured.set k2 x obj) as [x ->].
    { destruct s2 as [|f s2].
      - simpl in Hset. injection Hset as <-. eauto.
      - rewrite SetNestedField_cons in Hset.
        destruct (unstructured.get k2 obj) as [[?|?|m]|]; try done.
        + destruct (unstructured.SetNestedField m v (f :: s2)) as [m' [err|]]; [done|].
          injection Hset as <-. eauto.
        + destruct (unstructured.SetNestedField [] v (f :: s2)) as [m' [err|]]; [done|].
          injection Hset as <-. eauto. }
    simpl. by rewrite get_set_ne.
  - assert (∃ f rest, (p ++ k2 :: s2)%list = f :: rest) as (f & rest & Heq).
    { destruct p; simpl; eauto. }
    simpl app in Hset. rewrite Heq, SetNestedField_cons, <- Heq in Hset.
    simpl.
    destruct (unstructured.get field obj) as [[?|?|m]|] eqn:Hg; try done.
    + destruct (unstructured.SetNestedField m v _) as [m' [err|]] eqn:Hm; [done|].
      injection Hset as <-. rewrite get_set_eq. by eapply IH.
    + destruct (unstructured.SetNestedField [] v _) as [m' [err|]] eqn:Hm; [done|].
      injection Hset as <-. rewrite get_set_eq.
      erewrite IH by done.
      destruct p; simpl; done.
Qed.

(** Setting below a map that is there succeeds when setting inside that
    map does. *)
Lemma SetNestedField_below p : ∀ obj m v s m',
  s ≠ [] →
  unstructured.NestedFieldNoCopy (unstructured.Map obj) p
  = (Some (unstructured.Map m), true, None) →
  unstructured.SetNestedField m v s = (m', None) →
  ∃ obj', unstructured.SetNestedField obj v (p ++ s) = (obj', None).
Proof.
  induction p as [|field p IH]; intros obj m v s m' Hs Hread Hset.
  - simpl in Hread. injection Hread as <-. eauto.
  - simpl in Hread.
    destruct (unstructured.get field obj) as [x|] eqn:Hg; [|done].
    assert (∃ f rest, (p ++ s)%list = f :: rest) as (f & rest & Heq).
    { destruct p; [destruct s; [done|]|]; simpl; eauto. }
    simpl app. rewrite Heq, SetNestedField_cons, <- Heq, Hg.
    destruct x as [?|?|m0].
    + by destruct p.
    + by destruct p.
    + destruct (IH m0 m v s m' Hs Hread Hset) as [obj' ->]. eauto.
Qed.
End unstructured_facts.

Section inject_facts.
Implicit Types (crd : unstructured.Unstructured) (svc : corev1.Service).

Lemma NestedFieldNoCopy_app p : ∀ val s v,
  unstructured.NestedFieldNoCopy val (p ++ s) = (Some v, true, None) →
  ∃ x, unstructured.NestedFieldNoCopy val p = (Some x, true, None)
       ∧ unstructured.NestedFieldNoCopy x s = (Some v, true, None).
Proof.
  induction p as [|field p IH]; intros val s v Hread; [by eexists|].
  simpl in *. destruct val as [?|?|m]; try done.
  destruct (unstructured.get field m) as [x|]; [|done]. by apply IH.
Qed.

Lemma NestedMap_found obj p m :
  unstructured.NestedFieldNoCopy (unstructured.Map obj) p
  = (Some (unstructured.Map m), true, None) →
  unstructured.NestedMap obj p = (Some m, true, None).
Proof. unfold unstructured.NestedMap. by intros ->. Qed.

Lemma NestedMap_true obj p x :
  unstructured.NestedMap obj p = (x, true, None) →
  ∃ m, unstructured.NestedFieldNoCopy (unstructured.Map obj) p
       = (Some (unstructured.Map m), true, None).
Proof.
  unfold unstructured.NestedMap.
  destruct (unstructured.NestedFieldNoCopy _ _) as [[[[?|?|m]|] [|]] [err|]] eqn:Hr;
    try done.
  eauto.
Qed.

(** What a successful [injectSvcToConversionWebhook] did: two sets, the
    second on the result of the first. *)
Lemma injectSvc_inv crd svc crd' :
  injectSvcToConversionWebhook crd svc = (crd', None) →
  ∃ obj1,
    unstructured.SetNestedField (unstructured.Object crd)
      (unstructured.String_ (metav1.Name (corev1.ServiceMeta svc)))
      (conversionClientConfig ++ ["service"; "name"]) = (obj1, None)
    ∧ unstructured.SetNestedField obj1
        (unstructured.String_ (metav1.Namespace (corev1.ServiceMeta svc)))
        (conversionClientConfig ++ ["service"; "namespace"])
      = (unstructured.Object crd', None).
Proof.
  unfold injectSvcToConversionWebhook.
  destruct (unstructured.NestedMap _ _) as [[x [|]] [err|]]; try done.
  destruct (unstructured.SetNestedField (unstructured.Object crd) _ _)
    as [obj1 [err|]] eqn:H1; [done|].
  destruct (unstructured.SetNestedField obj1 _ _) as [obj2 [err|]] eqn:H2; [done|].
  intros [= <-]. eauto.
Qed.

Lemma injectCert_inv crd certPem crd' :
  injectCertToConversionWebhook crd certPem = (crd', None) →
  unstructured.SetNestedField (unstructured.Object crd)
    (unstructured.Base64 certPem) (conversionClientConfig ++ ["caBundle"])
  = (unstructured.Object crd', None).
Proof.
  unfold injectCertToConversionWebhook.
  destruct (unstructured.NestedMap _ _) as [[x [|]] [err|]]; try done.
  destruct (unstructured.SetNestedField _ _ _) as [obj1 [err|]] eqn:H1; [done|].
  by intros [= <-].
Qed.

Lemma injectSvc_read crd svc crd' :
  injectSvcToConversionWebhook crd svc = (crd', None) →
  unstructured.NestedFieldNoCopy (unstructured.Map (unstructured.Object crd'))
    (conversionClientConfig ++ ["service"; "name"])
  = (Some (unstructured.String_ (metav1.Name (corev1.ServiceMeta svc))), true, None)
  ∧ unstructured.NestedFieldNoCopy (unstructured.Map (unstructured.Object crd'))
      (conversionClientConfig ++ ["service"; "namespace"])
    = (Some (unstructured.String_ (metav1.Namespace (corev1.ServiceMeta svc))), true, None).
Proof.
  intros (obj1 & H1 & H2)%injectSvc_inv. split.
  - change (conversionClientConfig ++ ["service"; "name"])%list
      with ((conversionClientConfig ++ ["service"]) ++ "name" :: [])%list.
    erewrite (SetNestedField_frame (conversionClientConfig ++ ["service"])
                _ _ _ "name" "namespace" [] []); [|done|exact H2].
    by eapply SetNestedField_read.
  - by eapply SetNestedField_read.
Qed.

Lemma injectSvc_frame crd svc crd' k s :
  injectSvcToConversionWebhook crd svc = (crd', None) →
  k ≠ "service" →
  unstructured.NestedFieldNoCopy (unstructured.Map (unstructured.Object crd'))
    (conversionClientConfig ++ k :: s)
  = unstructured.NestedFieldNoCopy (unstructured.Map (unstructured.Object crd))
      (conversionClientConfig ++ k :: s).
Proof.
  intros (obj1 & H1 & H2)%injectSvc_inv Hk.
  erewrite (SetNestedField_frame conversionClientConfig
              _ _ _ k "service" s ["namespace"]); [|done|exact H2].
  by erewrite (SetNestedField_frame conversionClientConfig
                 _ _ _ k "service" s ["name"]); [|done|exact H1].
Qed.

Lemma injectCert_total crd certPem m :
  unstructured.NestedFieldNoCopy (unstructured.Map (unstructured.Object crd))
    conversionClientConfig = (Some (unstructured.Map m), true, None) →
  ∃ crd', injectCertToConversionWebhook crd certPem = (crd', None).
Proof.
  intros Hread. unfold injectCertToConversionWebhook.
  rewrite (NestedMap_found _ _ _ Hread).
  destruct (SetNestedField_below conversionClientConfig (unstructured.Object crd) m
              (unstructured.Base64 certPem) ["caBundle"] _ ltac:(done) Hread eq_refl)
    as [obj' ->].
  eauto.
Qed.

Lemma injectSvc_clientConfig crd svc crd' :
  injectSvcToConversionWebhook crd svc = (crd', None) →
  ∃ m, unstructured.NestedFieldNoCopy (unstructured.Map (unstructured.Object crd'))
         conversionClientConfig = (Some (unstructured.Map m), true, None).
Proof.
  intros [Hname _]%injectSvc_read.
  apply NestedFieldNoCopy_app in Hname as (x & Hx & Hs).
  destruct x as [?|?|m]; [done..|eauto].
Qed.
End inject_facts.

(** X4. [injectSvcToConversionWebhook] fails with the "field not found"
    error, leaving the resource as it is, when the resource has no
    [spec.conversion.webhook.clientConfig].  When it succeeds, the
    service's name and namespace can be read back under
    [clientConfig.service], and everything else under [clientConfig]
    (the CA bundle in particular) reads as before.  It succeeds whenever
    [clientConfig] is a map whose [service] entry is missing or a map. *)
Theorem X4_injectSvc_sets_the_service
    (crd : unstructured.Unstructured) (svc : corev1.Service) :
  (unstructured.NestedFieldNoCopy (unstructured.Map (unstructured.Object crd))
     conversionClientConfig = (None, false, None) →
   injectSvcToConversionWebhook crd svc
   = (crd, Some (errors.New "`conversion.webhook.clientConfig` field not found in CustomResourceDefinition")))
  ∧ (∀ crd', injectSvcToConversionWebhook crd svc = (crd', None) →
       unstructured.NestedFieldNoCopy (unstructured.Map (unstructured.Object crd'))
         (conversionClientConfig ++ ["service"; "name"])
       = (Some (unstructured.String_ (metav1.Name (corev1.ServiceMeta svc))), true, None)
       ∧ unstructured.NestedFieldNoCopy (unstructured.Map (unstructured.Object crd'))
           (conversionClientConfig ++ ["service"; "namespace"])
         = (Some (unstructured.String_ (metav1.Namespace (corev1.ServiceMeta svc))),
            true, None)
       ∧ ∀ k s, k ≠ "service" →
           unstructured.NestedFieldNoCopy (unstructured.Map (unstructured.Object crd'))
             (conversionClientConfig ++ k :: s)
           = unstructured.NestedFieldNoCopy (unstructured.Map (unstructured.Object crd))
               (conversionClientConfig ++ k :: s))
  ∧ (∀ m, unstructured.NestedFieldNoCopy (unstructured.Map (unstructured.Object crd))
            conversionClientConfig = (Some (unstructured.Map m), true, None) →
          (unstructured.get "service" m = None
           ∨ ∃ ms, unstructured.get "service" m = Some (unstructured.Map ms)) →
          ∃ crd', injectSvcToConversionWebhook crd svc = (crd', None)).
Proof.
  split; [|split].
  - intros Hread. unfold injectSvcToConversionWebhook, unstructured.NestedMap.
    by rewrite Hread.
  - intros crd' Hinj. destruct (injectSvc_read _ _ _ Hinj) as [Hn Hns].
    split; [done|]. split; [done|]. intros k s Hk. by eapply injectSvc_frame.
  - intros m Hread Hsvc. unfold injectSvcToConversionWebhook.
    rewrite (NestedMap_found _ _ _ Hread).
    assert (∀ v k, ∃ m', unstructured.SetNestedField m v ["service"; k] = (m', None))
      as Hset.
    { intros v k. rewrite SetNestedField_cons.
      destruct Hsvc as [->|[ms ->]]; simpl; eauto. }
    destruct (Hset (unstructured.String_ (metav1.Name (corev1.ServiceMeta svc))) "name")
      as [m1 Hm1].
    destruct (SetNestedField_below conversionClientConfig _ _ _ ["service"; "name"] _
                ltac:(done) Hread Hm1) as [obj1 Hobj1].
    rewrite Hobj1.
    (* after the first set, clientConfig.service is a map *)
    pose proof (SetNestedField_read (conversionClientConfig ++ ["service"; "name"])
                  _ _ _ ltac:(discriminate) Hobj1) as Hback.
    apply NestedFieldNoCopy_app in Hback as (x & Hx & Hs).
    destruct x as [?|?|mcc]; [done..|].
    simpl in Hs. destruct (unstructured.get "service" mcc) as [[?|?|ms]|] eqn:Hg;
      try done.
    assert (∃ m', unstructured.SetNestedField mcc
                    (unstructured.String_ (metav1.Namespace (corev1.ServiceMeta svc)))
                    ["service"; "namespace"] = (m', None)) as [m2 Hm2].
    { rewrite SetNestedField_cons, Hg. simpl. eauto. }
    destruct (SetNestedField_below conversionClientConfig _ _ _ ["service"; "namespace"] _
                ltac:(done) Hx Hm2) as [obj2 ->].
    eauto.
Qed.

(** X5. [injectCertToConversionWebhook] succeeds exactly when
    [clientConfig] is there as a map, in particular on every resource
    that [injectSvcToConversionWebhook] has patched; it then stores the
    certificate blob (base64-encoded) as [clientConfig.caBundle] and
    leaves everything else under [clientConfig] as it was, so the
    service name and namespace set before are still there. *)
Theorem X5_injectCert_after_injectSvc
    (crd : unstructured.Unstructured) (certPem : bytes) :
  (∀ crd', injectCertToConversionWebhook crd certPem = (crd', None) →
     unstructured.NestedFieldNoCopy (unstructured.Map (unstructured.Object crd'))
       (conversionClientConfig ++ ["caBundle"])
     = (Some (unstructured.Base64 certPem), true, None)
     ∧ ∀ k s, k ≠ "caBundle" →
         unstructured.NestedFieldNoCopy (unstructured.Map (unstructured.Object crd'))
           (conversionClientConfig ++ k :: s)
         = unstructured.NestedFieldNoCopy (unstructured.Map (unstructured.Object crd))
             (conversionClientConfig ++ k :: s))
  ∧ ((∃ crd', injectCertToConversionWebhook crd certPem = (crd', None))
     ↔ ∃ m, unstructured.NestedFieldNoCopy (unstructured.Map (unstructured.Object crd))
              conversionClientConfig = (Some (unstructured.Map m), true, None))
  ∧ (∀ crd0 svc, injectSvcToConversionWebhook crd0 svc = (crd, None) →
       ∃ crd', injectCertToConversionWebhook crd certPem = (crd', None)
               ∧ unstructured.NestedFieldNoCopy
                   (unstructured.Map (unstructured.Object crd'))
                   (conversionClientConfig ++ ["service"; "name"])
                 = (Some (unstructured.String_ (metav1.Name (corev1.ServiceMeta svc))),
                    true, None)
               ∧ unstructured.NestedFieldNoCopy
                   (unstructured.Map (unstructured.Object crd'))
                   (conversionClientConfig ++ ["service"; "namespace"])
                 = (Some (unstructured.String_ (metav1.Namespace (corev1.ServiceMeta svc))),
                    true, None)).
Proof.
  assert (∀ crd', injectCertToConversionWebhook crd certPem = (crd', None) →
            ∀ k s, k ≠ "caBundle" →
              unstructured.NestedFieldNoCopy (unstructured.Map (unstructured.Object crd'))
                (conversionClientConfig ++ k :: s)
              = unstructured.NestedFieldNoCopy (unstructured.Map (unstructured.Object crd))
                  (conversionClientConfig ++ k :: s)) as Hframe.
  { intros crd' Hset%injectCert_inv k s Hk.
    by erewrite (SetNestedField_frame conversionClientConfig
                   _ _ _ k "caBundle" s []); [|done|exact Hset]. }
  split; [|split].
  - intros crd' Hinj. split; [|by apply Hframe].
    apply injectCert_inv in Hinj. by eapply SetNestedField_read.
  - split.
    + intros [crd' Hinj]. unfold injectCertToConversionWebhook in Hinj.
      destruct (unstructured.NestedMap _ _) as [[x [|]] [err|]] eqn:Hm; try done.
      by eapply NestedMap_true.
    + intros [m Hm]. by eapply injectCert_total.
  - intros crd0 svc Hsvc.
    destruct (injectSvc_clientConfig _ _ _ Hsvc) as [m Hm].
    destruct (injectCert_total crd certPem m Hm) as [crd' Hinj].
    destruct (injectSvc_read _ _ _ Hsvc) as [Hn Hns].
    exists crd'. split; [done|].
    rewrite !(Hframe crd' Hinj "service") by done. done.
Qed.

(** ** The engine, case by case *)

Section engine_cases.
Context (r : Reconciler).
Implicit Types (w : World) (secret : corev1.Secret).

Lemma X509KeyPair_key_Decode cert key pair :
  tls.X509KeyPair cert key = inl pair → ∃ blk rest, pem.Decode key = (Some blk, rest).
Proof.
  unfold tls.X509KeyPair. intros H.
  destruct (map _ _) as [|first ?]; [by destruct (tls.blocks cert)|].
  destruct (pem.Decode key) as [[blk|] rest] eqn:Hd; [eauto|exfalso].
  assert (tls.blocks key = []) as Hb by (apply Decode_None_blocks; by rewrite Hd).
  rewrite Hb in H. done.
Qed.

(** [buildArtifactsFromSecret] answers neither artifacts nor error
    exactly when both CA blobs are there, the certificate parses and
    the key blob holds no PEM block. *)
Lemma buildArtifacts_nil_nil secret :
  buildArtifactsFromSecret secret = (None, None)
  ↔ ∃ caPem keyPem cac,
      lookupData secret caCertName = Some caPem
      ∧ lookupData secret caKeyName = Some keyPem
      ∧ firstCert caPem = Some cac
      ∧ (pem.Decode keyPem).1 = None.
Proof.
  unfold buildArtifactsFromSecret, lookupData. split.
  - destruct (corev1.Data secret ≫= _) as [caPem|]; [|done].
    destruct (corev1.Data secret ≫= _) as [keyPem|]; [|done].
    destruct (pem.Decode caPem) as [[caDer|] ?] eqn:Hd; [|done].
    destruct (x509.ParseCertificate _) as [cac|] eqn:Hp; [|done].
    destruct (pem.Decode keyPem) as [[keyDer|] ?] eqn:Hk.
    + by destruct (x509.ParsePKCS1PrivateKey _).
    + intros _. exists caPem, keyPem, cac. unfold firstCert.
      by rewrite Hd, Hp, Hk.
  - intros (caPem & keyPem & cac & -> & -> & Hc & Hk).
    apply firstCert_Decode in Hc as (blk & rest & -> & ->).
    by destruct (pem.Decode keyPem) as [[keyDer|] ?].
Qed.

(** A CA that passes the engine's check has a decodable key blob. *)
Lemma caValid_not_nil_nil secret w :
  caValid r secret w = true → buildArtifactsFromSecret secret ≠ (None, None).
Proof.
  intros Hca Hnil.
  apply buildArtifacts_nil_nil in Hnil as (caPem & keyPem & cac & _ & Hkey & _ & Hd).
  unfold caValid in Hca. destruct (corev1.Data secret); [|done].
  apply validAt_true_iff, ValidCert_true_iff in Hca
    as (_ & _ & pair & _ & _ & Hpair & _).
  apply X509KeyPair_key_Decode in Hpair as (blk & rest & Hblk).
  rewrite index_lookupData, Hkey in Hblk. simpl in Hblk. by rewrite Hblk in Hd.
Qed.

Lemma tail_drop {A} (l : list A) : ∀ n, tail (drop n l) = drop (S n) l.
Proof.
  induction l as [|x l IH]; intros [|n]; simpl; done.
Qed.

Lemma random_iter_drawn n w : random (Nat.iter n drawn w) = drop n (random w).
Proof.
  induction n as [|n IH]; simpl; [by rewrite drop_0|].
  by rewrite IH, tail_drop.
Qed.

Lemma clock_iter_drawn n w : clock (Nat.iter n drawn w) = clock w.
Proof. induction n as [|n IH]; simpl; done. Qed.

Lemma updates_iter_drawn n w : updates (Nat.iter n drawn w) = updates w.
Proof. induction n as [|n IH]; simpl; done. Qed.

(** Every run of the engine is of one of three kinds: nothing to do;
    a rotation given up before anything was written; a rotation
    written, of the CA and the leaf or of the leaf alone. *)
Lemma pass_cases secret w :
  let o := refreshCertIfNeeded r secret w in
  (caValid r secret w = true ∧ leafValid r secret w = true
   ∧ o = Returned (secret, (true, None)) w)
  ∨ ((caValid r secret w = false ∨ leafValid r secret w = false)
     ∧ (caValid r secret w = false → (length (random w) < 2)%nat)
     ∧ ∃ n, (n ≤ 2)%nat ∧ (caValid r secret w = true → (n ≤ 1)%nat)
            ∧ o = Returned (secret, (false, None)) (Nat.iter n drawn w))
  ∨ (caValid r secret w = false
     ∧ ∃ k k' rest, random w = k :: k' :: rest
         ∧ o = written r (rotated r (caArtifactsOf r (beginAt w) (endAt w) k) k' w secret)
                       (Nat.iter 2 drawn w))
  ∨ (caValid r secret w = true ∧ leafValid r secret w = false
     ∧ ∃ ca k rest, random w = k :: rest
         ∧ buildArtifactsFromSecret secret = (Some ca, None)
         ∧ keyBelongs ca = true
         ∧ o = written r (rotated r ca k w secret) (Nat.iter 1 drawn w)).
Proof.
  simpl. rewrite refreshCertIfNeeded_run. unfold written.
  destruct (caValid r secret w) eqn:Hca; simpl;
    [destruct (leafValid r secret w) eqn:Hleaf; simpl|].
  - by left.
  - rewrite refreshCerts_leaf_run.
    pose proof (caValid_not_nil_nil _ _ Hca) as Hnn.
    destruct (buildArtifactsFromSecret secret) as [[ca|] [err|]] eqn:Hb; [| | |done].
    + right; left. split; [by right|]. split; [done|]. exists 0%nat. eauto with lia.
    + destruct (random w) as [|k rest] eqn:Hrnd; simpl.
      { right; left. split; [by right|]. split; [done|]. exists 1%nat. eauto with lia. }
      destruct (keyBelongs ca) eqn:Hk; simpl.
      * right; right; right. split; [done|]. split; [done|].
        exists ca, k, rest. do 3 (split; [done|]).
        by destruct (client.Update _ _ _).
      * right; left. split; [by right|]. split; [done|]. exists 1%nat. eauto with lia.
    + right; left. split; [by right|]. split; [done|]. exists 0%nat. eauto with lia.
  - rewrite refreshCerts_full_run.
    destruct (random w) as [|k [|k' rest]] eqn:Hrnd; simpl.
    + right; left. split; [by left|]. split; [intros _; lia|].
      exists 1%nat. split; [lia|]. split; [done|]. done.
    + right; left. split; [by left|]. split; [intros _; lia|].
      exists 2%nat. split; [lia|]. split; [done|]. done.
    + right; right; left. split; [done|]. exists k, k', rest. split; [done|].
      by destruct (client.Update _ _ _).
Qed.
End engine_cases.

(** X6. The engine never panics, whatever the secret, the random source
    and the API server.  [refreshCerts] alone can: when
    [buildArtifactsFromSecret] answers neither artifacts nor error (a CA
    key blob without any PEM block) a leaf-only refresh dereferences
    the nil artifacts once a key has been drawn.  The engine only asks
    for a leaf-only refresh after the CA check, which such a key blob
    does not pass. *)
Theorem X6_engine_never_panics (r : Reconciler) (secret : corev1.Secret) (w : World) :
  (∀ msg w', refreshCertIfNeeded r secret w ≠ Panicked msg w')
  ∧ (buildArtifactsFromSecret secret = (None, None) → random w ≠ [] →
     refreshCerts r false secret w = Panicked nilDereference (drawn w)
     ∧ caValid r secret w = false).
Proof.
  split.
  - intros msg w' Hp. pose proof (pass_cases r secret w) as Hc. simpl in Hc.
    rewrite Hp in Hc. unfold written in Hc.
    destruct Hc as [(_ & _ & ?)|[(_ & _ & n & _ & _ & ?)|[(_ & k & k' & rest & _ & Hc)
                   |(_ & _ & ca & k & rest & _ & _ & _ & Hc)]]]; try done.
    + destruct (client.Update _ _ _); [done|]. by destruct (RestartOnSecretRefresh r).
    + destruct (client.Update _ _ _); [done|]. by destruct (RestartOnSecretRefresh r).
  - intros Hnil Hrnd. split.
    + rewrite refreshCerts_leaf_run, Hnil. by destruct (random w).
    + destruct (caValid r secret w) eqn:Hca; [|done].
      by apply caValid_not_nil_nil in Hca.
Qed.

(** X7. The error that the engine returns is always nil, and its
    boolean is false only for a bundle that needed a rotation: a bundle
    whose CA and leaf both pass the check at the lookahead time is
    answered [true] and handed back as it is, in an unchanged world. *)
Theorem X7_engine_error_is_always_nil
    (r : Reconciler) (secret : corev1.Secret) (w : World) :
  (∀ s' need err w',
     refreshCertIfNeeded r secret w = Returned (s', (need, err)) w' →
     err = None
     ∧ (need = false → caValid r secret w = false ∨ leafValid r secret w = false))
  ∧ (caValid r secret w = true → leafValid r secret w = true →
     refreshCertIfNeeded r secret w = Returned (secret, (true, None)) w).
Proof.
  split.
  - intros s' need err w' Hret.
    pose proof (pass_cases r secret w) as Hc. simpl in Hc.
    rewrite Hret in Hc. unfold written in Hc.
    destruct Hc as [(_ & _ & Hc)|[(Hinv & _ & n & _ & _ & Hc)|[(Hca & k & k' & rest & _ & Hc)
                   |(_ & Hleaf & ca & k & rest & _ & _ & _ & Hc)]]].
    + by injection Hc as -> -> -> ->.
    + by injection Hc as -> -> -> ->.
    + destruct (client.Update _ _ _); [|destruct (RestartOnSecretRefresh r); [done|]];
        injection Hc as -> -> -> ->; auto.
    + destruct (client.Update _ _ _); [|destruct (RestartOnSecretRefresh r); [done|]];
        injection Hc as -> -> -> ->; auto.
  - intros Hca Hleaf. by apply valid_secret_is_stable.
Qed.

(** X8. The engine terminates the process only under the restart
    policy, only with exit code 0, and only after a rotation has been
    written and accepted by the API server: the world it exits in holds
    exactly one more [Update], of a complete bundle.  Without the
    policy it never exits; with it, it never returns [true] after a
    rotation. *)
Theorem X8_exit_only_after_an_accepted_rotation
    (r : Reconciler) (secret : corev1.Secret) (w : World) :
  (∀ code w', refreshCertIfNeeded r secret w = Exited code w' →
     code = 0 ∧ RestartOnSecretRefresh r = true
     ∧ ∃ payload w'',
         w' = logged (SecretObject payload) w''
         ∧ updates w'' = updates w
         ∧ client.Update (Client r) w'' (SecretObject payload) = None
         ∧ completeBundle payload)
  ∧ (RestartOnSecretRefresh r = true →
     ∀ s' w', refreshCertIfNeeded r secret w = Returned (s', (true, None)) w' →
       s' = secret ∧ w' = w).
Proof.
  pose proof (pass_cases r secret w) as Hc. simpl in Hc. unfold written in Hc.
  split.
  - intros code w' Hex. rewrite Hex in Hc.
    destruct Hc as [(_ & _ & ?)|[(_ & _ & n & _ & _ & ?)|[(_ & k & k' & rest & _ & Hc)
                   |(Hca & _ & ca & k & rest & _ & Hb & Hk & Hc)]]]; try done.
    + destruct (client.Update _ _ _) eqn:Hu; [done|].
      destruct (RestartOnSecretRefresh r); [|done].
      injection Hc as -> ->. do 2 (split; [done|]).
      eexists _, _. split; [done|]. split; [done|]. split; [exact Hu|].
      apply rotated_complete; [done|]. apply keyBelongs_caArtifactsOf.
    + destruct (client.Update _ _ _) eqn:Hu; [done|].
      destruct (RestartOnSecretRefresh r); [|done].
      injection Hc as -> ->. do 2 (split; [done|]).
      eexists _, _. split; [done|]. split; [done|]. split; [exact Hu|].
      apply rotated_complete; [|done].
      by apply buildArtifacts_Some in Hb as (_ & _ & ? & _).
  - intros Hrestart s' w' Hret. rewrite Hret, Hrestart in Hc.
    destruct Hc as [(_ & _ & Hc)|[(_ & _ & n & _ & _ & ?)|[(_ & k & k' & rest & _ & Hc)
                   |(_ & _ & ca & k & rest & _ & _ & _ & Hc)]]]; try done.
    + by injection Hc as -> ->.
    + by destruct (client.Update _ _ _).
    + by destruct (client.Update _ _ _).
Qed.

(** The four names under which the bundle is stored. *)
Lemma rotated_other_keys (r : Reconciler) ca k w secret name :
  name ≠ caCertName → name ≠ caKeyName → name ≠ certName → name ≠ keyName →
  lookupData (rotated r ca k w secret) name = lookupData secret name.
Proof.
  intros. unfold rotated. rewrite populateSecret_lookup.
  repeat case_decide; done.
Qed.

Lemma final_written r payload w' :
  final (written r payload w') = logged (SecretObject payload) w'.
Proof.
  unfold written. destruct (client.Update _ _ _); [done|].
  by destruct (RestartOnSecretRefresh r).
Qed.

Lemma written_Returned r payload w' s' res w'' :
  written r payload w' = Returned (s', res) w'' → s' = payload.
Proof.
  unfold written. destruct (client.Update _ _ _); [by intros [= <- _ _]|].
  destruct (RestartOnSecretRefresh r); [done|]. by intros [= <- _ _].
Qed.


(** X10. [refreshCerts], in either mode, is all or nothing.  When it
    returns, either it returns an error with the secret as it was and
    no [Update] issued, or it has issued exactly one [Update], of the
    complete new bundle, and returns the new secret together with the
    API server's answer, nil or not, unchanged. *)
Theorem X10_refreshCerts_is_all_or_nothing
    (r : Reconciler) (refreshCA : bool) (secret : corev1.Secret) (w : World)
    (s' : corev1.Secret) (err : option error) (w' : World) :
  refreshCerts r refreshCA secret w = Returned (s', err) w' →
  (is_Some err ∧ s' = secret ∧ updates w' = updates w)
  ∨ (∃ w'', w' = logged (SecretObject s') w''
            ∧ updates w'' = updates w
            ∧ err = client.Update (Client r) w'' (SecretObject s')
            ∧ completeBundle s').
Proof.
  destruct refreshCA.
  - rewrite refreshCerts_full_run.
    destruct (random w) as [|k [|k' rest]]; simpl.
    + intros [= <- <- <-]. left. split; [by eexists|done].
    + intros [= <- <- <-]. left. split; [by eexists|done].
    + intros [= <- <- <-]. right. eexists. split; [done|]. split; [done|].
      split; [done|]. apply rotated_complete; [done|]. apply keyBelongs_caArtifactsOf.
  - rewrite refreshCerts_leaf_run.
    destruct (buildArtifactsFromSecret secret) as [[ca|] [e|]] eqn:Hb.
    + intros [= <- <- <-]. left. split; [by eexists|done].
    + destruct (random w) as [|k rest]; simpl.
      { intros [= <- <- <-]. left. split; [by eexists|done]. }
      destruct (keyBelongs ca) eqn:Hk; simpl.
      * intros [= <- <- <-]. right. eexists. split; [done|]. split; [done|].
        split; [done|]. apply rotated_complete; [|done].
        by apply buildArtifacts_Some in Hb as (_ & _ & ? & _).
      * intros [= <- <- <-]. left. split; [by eexists|done].
    + intros [= <- <- <-]. left. split; [by eexists|done].
    + destruct (random w); simpl; [|done].
      intros [= <- <- <-]. left. split; [by eexists|done].
Qed.

(** X11. The engine draws at most two keys from the random source: none
    when CA and leaf pass their checks, at most one when the CA does.
    What it leaves of the random source is what it found, less the
    keys drawn from the front. *)
Theorem X11_keys_drawn_by_a_pass
    (r : Reconciler) (secret : corev1.Secret) (w : World) :
  let o := refreshCertIfNeeded r secret w in
  ∃ n : nat,
    random (final o) = drop n (random w)
    ∧ (n ≤ 2)%nat
    ∧ (caValid r secret w = true → (n ≤ 1)%nat)
    ∧ (caValid r secret w = true → leafValid r secret w = true → n = 0%nat).
Proof.
  intros o. pose proof (pass_cases r secret w) as Hc. fold o in Hc.
  destruct Hc as [(Hca & Hleaf & ->)|[(Hinv & _ & n & Hn & Hn1 & ->)
                 |[(Hca & k & k' & rest & _ & ->)
                 |(Hca & Hleaf & ca & k & rest & _ & _ & _ & ->)]]].
  - exists 0%nat. simpl. rewrite drop_0. eauto with lia.
  - exists n. simpl. rewrite random_iter_drawn.
    split; [done|]. split; [done|]. split; [done|].
    intros Hca Hleaf. destruct Hinv; congruence.
  - exists 2%nat. rewrite final_written.
    split; [exact (random_iter_drawn 2 w)|]. split; [lia|].
    split; intros; congruence.
  - exists 1%nat. rewrite final_written.
    split; [exact (random_iter_drawn 1 w)|]. split; [lia|].
    split; [lia|]. intros; congruence.
Qed.

(** ** More on the validity check *)

(** X12. A leaf issued by [CreateCertPEM] under one CA is rejected by
    [ValidCert] against any other trust anchor: a CA certificate whose
    public key is not the one of the signing key (and that is not the
    leaf itself) yields [false] with an error, for every host name and
    every time. *)
Theorem X12_leaf_fails_under_another_CA
    (r : Reconciler) (ca : KeyPairArtifacts) (begin end_ : time.Time) (w w' : World)
    (certPEM keyPEM otherCA : bytes) (cac : x509.Certificate)
    (host : string) (t : time.Time) :
  CreateCertPEM r (Some ca) begin end_ w = Returned (certPEM, keyPEM, None) w' →
  firstCert otherCA = Some cac →
  x509.PublicKey cac ≠ Some (rsa.Public (Key ca)) →
  firstCert certPEM ≠ Some cac →
  ∃ err, ValidCert otherCA certPEM keyPEM host t = (false, Some err).
Proof.
  rewrite CreateCertPEM_run. intros Hrun Hca Hpub Hne.
  destruct (random w) as [|k rest]; [done|].
  destruct (keyBelongs ca); [|done]. injection Hrun as <- <- <-.
  destruct (ValidCert_cases otherCA (pemCert (leafCertificate r ca begin end_ k))
              (pemKey k) host t) as [Hv|Hv]; [exfalso|done].
  apply ValidCert_true_iff in Hv as (cac' & crt & pair & Hca' & Hcrt & _ & _ & _ & Hc).
  rewrite Hca in Hca'. injection Hca' as <-.
  injection Hcrt as <-. unfold chainsTo in Hc.
  destruct (decide (_ = cac)) as [Heq|_]; [by rewrite <- Heq in Hne|].
  destruct Hc as (Hacc & _). unfold x509.acceptableRoot in Hacc.
  apply andb_true_iff in Hacc as [[_ Hsig]%andb_true_iff _].
  apply bool_decide_eq_true in Hsig. unfold x509.CheckSignatureFrom in Hsig.
  destruct (negb _); [done|]. case_bool_decide as Hs; [|done].
  destruct Hs as [_ Hs]. simpl in Hs. congruence.
Qed.


(** X14. The times at which [ValidCert] accepts given blobs and a given
    host name form an interval: blobs accepted at two times are
    accepted at every time in between.  So a bundle that the engine
    finds valid now and at a later reference time was valid throughout,
    and a bundle found expired stays expired. *)
Theorem X14_accepted_times_form_an_interval
    (caCert cert key : bytes) (host : string) (t1 t2 t3 : time.Time) :
  ValidCert caCert cert key host t1 = (true, None) →
  ValidCert caCert cert key host t3 = (true, None) →
  t1 ≤ t2 ≤ t3 →
  ValidCert caCert cert key host t2 = (true, None).
Proof.
  rewrite !ValidCert_true_iff.
  intros (cac & crt & pair & Hca & Hcrt & Hpair & Hw1 & Hh & Hc1)
         (cac' & crt' & pair' & Hca' & Hcrt' & _ & Hw3 & _ & Hc3) Ht.
  rewrite Hca in Hca'. injection Hca' as <-.
  rewrite Hcrt in Hcrt'. injection Hcrt' as <-.
  exists cac, crt, pair. do 3 (split; [done|]).
  split; [unfold inWindow in *; lia|]. split; [done|].
  unfold chainsTo in *. destruct (decide (crt = cac)); [done|].
  destruct Hc1 as (Ha1 & Hu1 & Hu2), Hc3 as (Ha3 & _).
  split; [|done]. unfold x509.acceptableRoot in *.
  apply andb_true_iff in Ha1 as [Hs1 Hr1], Ha3 as [_ Hr3].
  rewrite Hs1. simpl. apply bool_decide_eq_true.
  apply bool_decide_eq_true in Hr1, Hr3.
  apply checkTime_None. apply checkTime_None in Hr1, Hr3.
  unfold inWindow in *. lia.
Qed.

(** ** The reconciliation of one resource *)

Section updateCRD_facts.
Implicit Types (r : Reconciler) (w : World) (secret : corev1.Secret).

Lemma rotated_not_nil_nil r ca k w secret :
  (∃ blk rest, pem.Decode (KeyPEM ca) = (Some blk, rest)) →
  buildArtifactsFromSecret (rotated r ca k w secret) ≠ (None, None).
Proof.
  intros (blk & rest & Hd) Hnil.
  apply buildArtifacts_nil_nil in Hnil as (caPem & keyPem & cac & _ & Hkey & _ & Hn).
  unfold rotated in Hkey. rewrite populateSecret_lookup in Hkey.
  repeat case_decide; try done. injection Hkey as <-. by rewrite Hd in Hn.
Qed.

(** What the caller of the engine can rely on. *)
Lemma engine_outcome r secret w :
  let o := refreshCertIfNeeded r secret w in
  (∀ msg w', o ≠ Panicked msg w')
  ∧ (updates (final o) = updates w
     ∨ ∃ payload, updates (final o) = (updates w ++ [SecretObject payload])%list)
  ∧ (∀ s' need err w', o = Returned (s', (need, err)) w' → err = None)
  ∧ (∀ s' w', o = Returned (s', (true, None)) w' →
       buildArtifactsFromSecret s' ≠ (None, None))
  ∧ (∀ code w', o = Exited code w' →
       code = 0 ∧ RestartOnSecretRefresh r = true
       ∧ ∃ payload, updates w' = (updates w ++ [SecretObject payload])%list).
Proof.
  intros o. pose proof (pass_cases r secret w) as Hc. fold o in Hc.
  assert (∀ payload w2, updates w2 = updates w →
            (∃ blk rest, pem.Decode (KeyPEM payload.1) = (Some blk, rest)) →
            o = written r (rotated r payload.1 payload.2 w secret) w2 →
            (∀ msg w', o ≠ Panicked msg w')
            ∧ (updates (final o) = updates w
               ∨ ∃ p, updates (final o) = (updates w ++ [SecretObject p])%list)
            ∧ (∀ s' need err w', o = Returned (s', (need, err)) w' → err = None)
            ∧ (∀ s' w', o = Returned (s', (true, None)) w' →
                 buildArtifactsFromSecret s' ≠ (None, None))
            ∧ (∀ code w', o = Exited code w' →
                 code = 0 ∧ RestartOnSecretRefresh r = true
                 ∧ ∃ p, updates w' = (updates w ++ [SecretObject p])%list)) as Hw.
  { intros [ca k] w2 Hu Hd ->. simpl in *.
    split; [|split; [|split; [|split]]].
    - intros msg w'. unfold written. destruct (client.Update _ _ _); [done|].
      by destruct (RestartOnSecretRefresh r).
    - right. rewrite final_written. simpl. rewrite Hu. eauto.
    - intros s' need err w'. unfold written.
      destruct (client.Update _ _ _); [by intros [= _ _ <- _]|].
      destruct (RestartOnSecretRefresh r); [done|]. by intros [= _ _ <- _].
    - intros s' w' Hr. apply written_Returned in Hr as ->.
      by apply rotated_not_nil_nil.
    - intros code w'. unfold written.
      destruct (client.Update _ _ _); [done|].
      destruct (RestartOnSecretRefresh r); [|done].
      intros [= <- <-]. simpl. rewrite Hu. eauto. }
  destruct Hc as [(Hca & Hleaf & Ho)|[(Hinv & _ & n & Hn & Hn1 & Ho)
                 |[(Hca & k & k' & rest & _ & Ho)
                 |(Hca & Hleaf & ca & k & rest & _ & Hb & _ & Ho)]]].
  - rewrite Ho. split; [done|]. split; [by left|].
    split; [by intros ???? [= _ _ <- _]|].
    split; [|done]. intros s' w' [= <- _]. by eapply caValid_not_nil_nil.
  - rewrite Ho. split; [done|]. split; [left; simpl; apply updates_iter_drawn|].
    split; [by intros ???? [= _ _ <- _]|]. done.
  - apply (Hw (caArtifactsOf r (beginAt w) (endAt w) k, k') (Nat.iter 2 drawn w));
      [apply (updates_iter_drawn 2)| |done].
    simpl. unfold pemKey. simpl. eauto.
  - apply (Hw (ca, k) (Nat.iter 1 drawn w)); [apply (updates_iter_drawn 1)| |done].
    simpl. apply buildArtifacts_Some in Hb as (_ & _ & _ & blk & rest' & ? & _). eauto.
Qed.

(** Before anything is computed or written, [updateCRD] needs exactly
    one service, exactly one secret and the resource. *)
Lemma updateCRD_cases r req w :
  (∃ e, updateCRD r req w = Returned (r, Some e) w)
  ∨ ∃ svc secret crd,
      client.ListServices (Client r) w (SvcLabels r) = inl [svc]
      ∧ client.ListSecrets (Client r) w (SecretLabels r) = inl [secret]
      ∧ client.Get (Client r) w (ctrl.NamespacedName req) = inl crd.
Proof.
  unfold updateCRD, client_ListServices, client_ListSecrets, client_Get.
  unfold mbind, Go_bind, mret, Go_ret.
  destruct (client.ListServices _ _ _) as [svcs|e]; [|left; by eexists].
  destruct (Z.eqb_spec (Z.of_nat (length svcs)) 1) as [Hl|Hl]; simpl;
    [|left; by eexists].
  destruct svcs as [|svc [|? ?]]; simpl in Hl; [lia| |lia].
  destruct (client.ListSecrets _ _ _) as [secrets|e]; [|left; by eexists].
  destruct (Z.eqb_spec (Z.of_nat (length secrets)) 1) as [Hl'|Hl']; simpl;
    [|left; by eexists].
  destruct secrets as [|secret [|? ?]]; simpl in Hl'; [lia| |lia].
  destruct (client.Get _ _ _) as [crd|e]; [|left; by eexists].
  right. by exists svc, secret, crd.
Qed.

(** [updateCRD] once the three reads have succeeded. *)
Lemma updateCRD_run r req w svc secret crd :
  client.ListServices (Client r) w (SvcLabels r) = inl [svc] →
  client.ListSecrets (Client r) w (SecretLabels r) = inl [secret] →
  client.Get (Client r) w (ctrl.NamespacedName req) = inl crd →
  updateCRD r req w =
  match injectSvcToConversionWebhook crd svc with
  | (_, Some err) => Returned (r, Some err) w
  | (crd1, None) =>
    let r' := set_dnsName r (metav1.Name (corev1.ServiceMeta svc) +:+ "." +:+
                             metav1.Namespace (corev1.ServiceMeta svc) +:+ ".svc") in
    match refreshCertIfNeeded r' secret w with
    | Returned (_, (_, Some err)) w1 => Returned (r', Some err) w1
    | Returned (s', (true, None)) w1 =>
      match buildArtifactsFromSecret s' with
      | (_, Some err) => Returned (r', Some err) w1
      | (None, None) => Panicked nilDereference w1
      | (Some a, None) =>
        match injectCertToConversionWebhook crd1 (CertPEM a) with
        | (_, Some err) => Returned (r', Some err) w1
        | (crd2, None) =>
            Returned (r', client.Update (Client r) w1 (UnstructuredObject crd2))
                     (logged (UnstructuredObject crd2) w1)
        end
      end
    | Returned (_, (false, None)) w1 =>
        Returned (r', client.Update (Client r) w1 (UnstructuredObject crd1))
                 (logged (UnstructuredObject crd1) w1)
    | Exited code w1 => Exited code w1
    | Panicked msg w1 => Panicked msg w1
    end
  end.
Proof.
  intros Hsvc Hsec Hget.
  unfold updateCRD, client_ListServices, client_ListSecrets, client_Get.
  unfold mbind, Go_bind, mret, Go_ret. rewrite Hsvc. simpl. rewrite Hsec. simpl.
  rewrite Hget. destruct (injectSvcToConversionWebhook crd svc) as [crd1 [e|]]; [done|].
  simpl. destruct (refreshCertIfNeeded _ secret w) as [[s' [need [e|]]] w1| |];
    try done; destruct need; try done.
  - destruct (buildArtifactsFromSecret s') as [[a|] [e|]]; try done.
    destruct (injectCertToConversionWebhook crd1 (CertPEM a)) as [crd2 [e|]]; [done|].
    unfold client_Update, logged. simpl. by destruct (client.Update _ _ _).
  - unfold client_Update, logged. simpl. by destruct (client.Update _ _ _).
Qed.
End updateCRD_facts.

Section updateCRD_patch.
Implicit Types (crd : unstructured.Unstructured).

Lemma injectCert_read crd certPem crd' :
  injectCertToConversionWebhook crd certPem = (crd', None) →
  unstructured.NestedFieldNoCopy (unstructured.Map (unstructured.Object crd'))
    (conversionClientConfig ++ ["caBundle"])
  = (Some (unstructured.Base64 certPem), true, None).
Proof. intros Hinj%injectCert_inv. by eapply SetNestedField_read. Qed.

Lemma injectCert_frame crd certPem crd' k s :
  injectCertToConversionWebhook crd certPem = (crd', None) →
  k ≠ "caBundle" →
  unstructured.NestedFieldNoCopy (unstructured.Map (unstructured.Object crd'))
    (conversionClientConfig ++ k :: s)
  = unstructured.NestedFieldNoCopy (unstructured.Map (unstructured.Object crd))
      (conversionClientConfig ++ k :: s).
Proof.
  intros Hset%injectCert_inv Hk.
  by erewrite (SetNestedField_frame conversionClientConfig
                 _ _ _ k "caBundle" s []); [|done|exact Hset].
Qed.
End updateCRD_patch.

(** X15. [updateCRD] never panics: its two reads of element 0 come after
    the length checks, and it asks for the CA artifacts only after a
    pass of the engine that leaves a CA key blob with a PEM block in
    it.  It ends the process only with code 0, only when
    [RestartOnSecretRefresh] is set, and only after one update of the
    secret; the resource itself has then not been updated. *)
Theorem X15_updateCRD_never_panics (r : Reconciler) (req : ctrl.Request) (w : World) :
  let o := updateCRD r req w in
  (∀ msg w', o ≠ Panicked msg w')
  ∧ (∀ code w', o = Exited code w' →
       code = 0 ∧ RestartOnSecretRefresh r = true
       ∧ ∃ payload, updates w' = (updates w ++ [SecretObject payload])%list).
Proof.
  intros o. subst o.
  destruct (updateCRD_cases r req w) as [[e ->]|(svc & secret & crd & Hsvc & Hsec & Hget)];
    [done|].
  rewrite (updateCRD_run _ _ _ _ _ _ Hsvc Hsec Hget).
  destruct (injectSvcToConversionWebhook crd svc) as [crd1 [e|]]; [done|]. simpl.
  set (r' := set_dnsName r _).
  pose proof (engine_outcome r' secret w) as (Hp & _ & _ & Hn & Hx). simpl in Hp, Hn, Hx.
  destruct (refreshCertIfNeeded r' secret w) as [[s' [[|] [e|]]] w1|code w1|msg w1];
    try done.
  - specialize (Hn s' w1 eq_refl).
    destruct (buildArtifactsFromSecret s') as [[a|] [e|]]; [done| |done|done].
    by destruct (injectCertToConversionWebhook crd1 (CertPEM a)) as [crd2 [e|]].
  - split; [done|]. intros code' w' [= <- <-]. by apply Hx.
  - by destruct (Hp msg w1).
Qed.

(** X16. When [updateCRD] returns nil, exactly one service and one
    secret matched the labels; the last update issued is that of the
    resource, and the API server accepted it; the resource handed over
    names the service and its namespace under [clientConfig.service];
    the reconciler's host name is now [<name>.<namespace>.svc]; and when
    the engine, run for that host name, reported the bundle in order,
    [clientConfig.caBundle] is the CA certificate blob of the secret as
    the engine left it, which holds a certificate. *)
Theorem X16_updateCRD_success
    (r : Reconciler) (req : ctrl.Request) (w : World) (r' : Reconciler) (w' : World) :
  updateCRD r req w = Returned (r', None) w' →
  ∃ svc secret crd',
    client.ListServices (Client r) w (SvcLabels r) = inl [svc]
    ∧ client.ListSecrets (Client r) w (SecretLabels r) = inl [secret]
    ∧ r' = set_dnsName r (metav1.Name (corev1.ServiceMeta svc) +:+ "." +:+
                          metav1.Namespace (corev1.ServiceMeta svc) +:+ ".svc")
    ∧ (∃ w1, w' = logged (UnstructuredObject crd') w1
             ∧ client.Update (Client r) w1 (UnstructuredObject crd') = None)
    ∧ unstructured.NestedFieldNoCopy (unstructured.Map (unstructured.Object crd'))
        (conversionClientConfig ++ ["service"; "name"])
      = (Some (unstructured.String_ (metav1.Name (corev1.ServiceMeta svc))), true, None)
    ∧ unstructured.NestedFieldNoCopy (unstructured.Map (unstructured.Object crd'))
        (conversionClientConfig ++ ["service"; "namespace"])
      = (Some (unstructured.String_ (metav1.Namespace (corev1.ServiceMeta svc))),
         true, None)
    ∧ (∀ s' w1, refreshCertIfNeeded r' secret w = Returned (s', (true, None)) w1 →
         unstructured.NestedFieldNoCopy (unstructured.Map (unstructured.Object crd'))
           (conversionClientConfig ++ ["caBundle"])
         = (Some (unstructured.Base64 (corev1.index s' caCertName)), true, None)
         ∧ is_Some (firstCert (corev1.index s' caCertName))).
Proof.
  destruct (updateCRD_cases r req w) as [[e ->]|(svc & secret & crd & Hsvc & Hsec & Hget)];
    [done|].
  rewrite (updateCRD_run _ _ _ _ _ _ Hsvc Hsec Hget).
  destruct (injectSvcToConversionWebhook crd svc) as [crd1 [e|]] eqn:Hinj; [done|].
  cbv beta iota zeta. destruct (injectSvc_read _ _ _ Hinj) as [Hname Hns].
  destruct (refreshCertIfNeeded _ secret w) as [[s' [need [e|]]] w1|code w1|msg w1] eqn:Ho;
    try done; destruct need; try done.
  - destruct (buildArtifactsFromSecret s') as [[a|] [e|]] eqn:Hb; [done| |done|done].
    destruct (injectCertToConversionWebhook crd1 (CertPEM a)) as [crd2 [e|]] eqn:Hc;
      [done|].
    intros [= <- Hup <-]. exists svc, secret, crd2.
    do 3 (split; [done|]). split; [eauto|].
    rewrite !(injectCert_frame _ _ _ "service" _ Hc) by done.
    do 2 (split; [done|]). rewrite Ho. intros ? ? [= <- <-].
    apply buildArtifacts_Some in Hb as (Hca & _ & Hfirst & _).
    rewrite index_lookupData, Hca. simpl. split; [|by eexists].
    by eapply injectCert_read.
  - intros [= <- Hup <-]. exists svc, secret, crd1.
    do 3 (split; [done|]). split; [eauto|].
    do 2 (split; [done|]). rewrite Ho. by intros ? ? [= _ ? _].
Qed.

Ltac no_resource_update :=
  simpl; rewrite ?app_nil_r;
  split; [done|]; split; [by eauto|]; split; [by left|]; intros; by left.

(** X17. Whatever its outcome, [updateCRD] issues at most two updates
    and in this order: at most one of the secret, then at most one of
    the resource.  When it returns an error, either the resource was
    not updated or the error is the API server's answer to that
    update. *)
Theorem X17_updateCRD_updates (r : Reconciler) (req : ctrl.Request) (w : World) :
  let o := updateCRD r req w in
  ∃ pre post,
    updates (final o) = (updates w ++ pre ++ post)%list
    ∧ (pre = [] ∨ ∃ payload, pre = [SecretObject payload])
    ∧ (post = [] ∨ ∃ crd, post = [UnstructuredObject crd])
    ∧ (∀ r' e w', o = Returned (r', Some e) w' →
         post = []
         ∨ ∃ crd w1, post = [UnstructuredObject crd]
                     ∧ w' = logged (UnstructuredObject crd) w1
                     ∧ client.Update (Client r) w1 (UnstructuredObject crd) = Some e).
Proof.
  intros o. subst o.
  destruct (updateCRD_cases r req w) as [[e ->]|(svc & secret & crd & Hsvc & Hsec & Hget)].
  { exists [], []. no_resource_update. }
  rewrite (updateCRD_run _ _ _ _ _ _ Hsvc Hsec Hget).
  destruct (injectSvcToConversionWebhook crd svc) as [crd1 [e|]].
  { exists [], []. no_resource_update. }
  simpl. set (r' := set_dnsName r _).
  pose proof (engine_outcome r' secret w) as (_ & Hu & _). simpl in Hu.
  assert (∃ pre, updates (final (refreshCertIfNeeded r' secret w))
                 = (updates w ++ pre)%list
                 ∧ (pre = [] ∨ ∃ payload, pre = [SecretObject payload]))
    as (pre & Hpre & Hshape).
  { destruct Hu as [Hu|[p Hu]]; [exists []|exists [SecretObject p]];
      rewrite Hu; [rewrite app_nil_r|]; eauto. }
  clear Hu. exists pre.
  assert (∀ crd' w1, updates w1 = (updates w ++ pre)%list →
            updates (logged (UnstructuredObject crd') w1)
            = (updates w ++ pre ++ [UnstructuredObject crd'])%list) as Hlog.
  { intros crd' w1 Hw1. simpl. by rewrite Hw1, <- app_assoc. }
  destruct (refreshCertIfNeeded r' secret w) as [[s' [need [e|]]] w1|code w1|msg w1];
    simpl in Hpre.
  - destruct need; exists []; no_resource_update.
  - destruct need.
    + destruct (buildArtifactsFromSecret s') as [[a|] [e|]];
        try (exists []; by no_resource_update).
      destruct (injectCertToConversionWebhook crd1 (CertPEM a)) as [crd2 [e|]];
        [exists []; by no_resource_update|].
      exists [UnstructuredObject crd2]. split; [by apply Hlog|].
      split; [done|]. split; [eauto|].
      intros r'' e w' [= _ He <-]. right. by exists crd2, w1.
    + exists [UnstructuredObject crd1]. split; [by apply Hlog|].
      split; [done|]. split; [eauto|].
      intros r'' e w' [= _ He <-]. right. by exists crd1, w1.
  - exists []. no_resource_update.
  - exists []. no_resource_update.
Qed.

(** X18. [updateCRD] touches nothing without its inputs.  Unless exactly
    one service and one secret match, the resource is found and it has
    a [clientConfig] to patch, [updateCRD] returns an error with the
    reconciler as it was, no key drawn and no update issued.  An error
    of one of the three reads is handed on unchanged, and a resource
    without [clientConfig] yields the "field not found" error. *)
Theorem X18_updateCRD_needs_its_inputs
    (r : Reconciler) (req : ctrl.Request) (w : World) :
  ((∃ e, updateCRD r req w = Returned (r, Some e) w)
   ∨ ∃ svc secret crd crd1,
       client.ListServices (Client r) w (SvcLabels r) = inl [svc]
       ∧ client.ListSecrets (Client r) w (SecretLabels r) = inl [secret]
       ∧ client.Get (Client r) w (ctrl.NamespacedName req) = inl crd
       ∧ injectSvcToConversionWebhook crd svc = (crd1, None))
  ∧ (∀ e, client.ListServices (Client r) w (SvcLabels r) = inr e →
          updateCRD r req w = Returned (r, Some e) w)
  ∧ (∀ svc e, client.ListServices (Client r) w (SvcLabels r) = inl [svc] →
       client.ListSecrets (Client r) w (SecretLabels r) = inr e →
       updateCRD r req w = Returned (r, Some e) w)
  ∧ (∀ svc secret, client.ListServices (Client r) w (SvcLabels r) = inl [svc] →
       client.ListSecrets (Client r) w (SecretLabels r) = inl [secret] →
       (∀ e, client.Get (Client r) w (ctrl.NamespacedName req) = inr e →
             updateCRD r req w = Returned (r, Some e) w)
       ∧ (∀ crd, client.Get (Client r) w (ctrl.NamespacedName req) = inl crd →
            unstructured.NestedFieldNoCopy (unstructured.Map (unstructured.Object crd))
              conversionClientConfig = (None, false, None) →
            updateCRD r req w
            = Returned (r, Some (errors.New "`conversion.webhook.clientConfig` field not found in CustomResourceDefinition")) w)).
Proof.
  split; [|split; [|split]].
  - destruct (updateCRD_cases r req w) as [?|(svc & secret & crd & Hsvc & Hsec & Hget)];
      [by left|].
    destruct (injectSvcToConversionWebhook crd svc) as [crd1 [e|]] eqn:Hinj.
    + left. exists e. by rewrite (updateCRD_run _ _ _ _ _ _ Hsvc Hsec Hget), Hinj.
    + right. by exists svc, secret, crd, crd1.
  - intros e He. unfold updateCRD, client_ListServices, mbind, Go_bind.
    by rewrite He.
  - intros svc e Hsvc He.
    unfold updateCRD, client_ListServices, client_ListSecrets, mbind, Go_bind.
    rewrite Hsvc. simpl. by rewrite He.
  - intros svc secret Hsvc Hsec. split.
    + intros e He.
      unfold updateCRD, client_ListServices, client_ListSecrets, client_Get,
        mbind, Go_bind.
      rewrite Hsvc. simpl. rewrite Hsec. simpl. by rewrite He.
    + intros crd Hget Hcc. rewrite (updateCRD_run _ _ _ _ _ _ Hsvc Hsec Hget).
      unfold injectSvcToConversionWebhook, unstructured.NestedMap. by rewrite Hcc.
Qed.

(** ** The two checks of the engine *)


(** ** Reading the CA back from the secret *)

Section secret_facts.
Implicit Types (s secret : corev1.Secret).

Lemma secret_ext s1 s2 :
  corev1.SecretMeta s1 = corev1.SecretMeta s2 →
  is_Some (corev1.Data s1) → is_Some (corev1.Data s2) →
  (∀ k, lookupData s1 k = lookupData s2 k) →
  s1 = s2.
Proof.
  destruct s1 as [m1 d1], s2 as [m2 d2]. unfold lookupData. simpl.
  intros -> [x1 ->] [x2 ->] Hk. f_equal. f_equal. apply map_eq, Hk.
Qed.
End secret_facts.

(** X20. The outcomes of [buildArtifactsFromSecret].  It answers
    artifacts exactly when both CA entries are there, the certificate
    blob holds a certificate and the first PEM block of the key blob
    holds a PKCS#1 key; the artifacts are then these two blobs and what
    they hold.  The type of the key's block is not looked at, and the
    key is not compared with the certificate.  It never answers
    artifacts together with an error.  A missing entry is reported by
    name.  It answers neither artifacts nor error exactly when the key
    blob holds no PEM block while the certificate is in order. *)
Theorem X20_buildArtifactsFromSecret_outcomes (secret : corev1.Secret) :
  (∀ ca, buildArtifactsFromSecret secret = (Some ca, None)
         ↔ lookupData secret caCertName = Some (CertPEM ca)
           ∧ lookupData secret caKeyName = Some (KeyPEM ca)
           ∧ firstCert (CertPEM ca) = Some (Cert ca)
           ∧ ∃ blk rest, pem.Decode (KeyPEM ca) = (Some blk, rest)
                         ∧ x509.ParsePKCS1PrivateKey (pem.Bytes blk) = inl (Key ca))
  ∧ (∀ ca e, buildArtifactsFromSecret secret ≠ (Some ca, Some e))
  ∧ (lookupData secret caCertName = None →
     buildArtifactsFromSecret secret
     = (None, Some (errors.New "cert secret is not well-formed, missing ca.crt")))
  ∧ (is_Some (lookupData secret caCertName) → lookupData secret caKeyName = None →
     buildArtifactsFromSecret secret
     = (None, Some (errors.New "cert secret is not well-formed, missing ca.key")))
  ∧ (buildArtifactsFromSecret secret = (None, None)
     ↔ ∃ caPem keyPem cac,
         lookupData secret caCertName = Some caPem
         ∧ lookupData secret caKeyName = Some keyPem
         ∧ firstCert caPem = Some cac
         ∧ (pem.Decode keyPem).1 = None).
Proof.
  split; [|split; [|split; [|split]]].
  - intros ca. split; [apply buildArtifacts_Some|].
    intros (Hc & Hk & Hfirst & blk & rest & Hd & Hp).
    apply firstCert_Decode in Hfirst as (cblk & crest & Hcd & Hcp).
    unfold buildArtifactsFromSecret. unfold lookupData in Hc, Hk.
    rewrite Hc, Hk, Hcd, Hcp, Hd, Hp. by destruct ca.
  - intros ca e. unfold buildArtifactsFromSecret.
    destruct (corev1.Data secret ≫= _) as [caPem|]; [|done].
    destruct (corev1.Data secret ≫= _) as [keyPem|]; [|done].
    destruct (pem.Decode caPem) as [[caDer|] ?]; [|done].
    destruct (x509.ParseCertificate _) as [cac|]; [|done].
    destruct (pem.Decode keyPem) as [[keyDer|] ?]; [|done].
    by destruct (x509.ParsePKCS1PrivateKey _).
  - unfold buildArtifactsFromSecret, lookupData. by intros ->.
  - unfold buildArtifactsFromSecret, lookupData. by intros [caPem ->] ->.
  - apply buildArtifacts_nil_nil.
Qed.

(** X21. [populateSecret] overwrites the four entries of the bundle and
    nothing else: afterwards the secret has a data map (also when it
    had none), the four names hold the CA's two blobs and the given
    leaf blobs, every other entry and the metadata are as before.  What
    an earlier [populateSecret] had stored is gone: the last call wins,
    and a call repeated changes nothing. *)
Theorem X21_populateSecret_overwrites_the_bundle
    (cert key : bytes) (ca : KeyPairArtifacts) (secret : corev1.Secret) :
  let s' := populateSecret cert key ca secret in
  is_Some (corev1.Data s')
  ∧ lookupData s' caCertName = Some (CertPEM ca)
  ∧ lookupData s' caKeyName = Some (KeyPEM ca)
  ∧ lookupData s' certName = Some cert
  ∧ lookupData s' keyName = Some key
  ∧ (∀ k, k ∉ [caCertName; caKeyName; certName; keyName] →
          lookupData s' k = lookupData secret k)
  ∧ corev1.SecretMeta s' = corev1.SecretMeta secret
  ∧ (∀ cert0 key0 ca0,
       populateSecret cert key ca (populateSecret cert0 key0 ca0 secret) = s')
  ∧ populateSecret cert key ca s' = s'.
Proof.
  intros s'. subst s'.
  assert (∀ cert0 key0 ca0,
            populateSecret cert key ca (populateSecret cert0 key0 ca0 secret)
            = populateSecret cert key ca secret) as Hlast.
  { intros cert0 key0 ca0. apply secret_ext; [done|by eexists|by eexists|].
    intros k. rewrite !populateSecret_lookup. by repeat case_decide. }
  split; [by eexists|].
  do 4 (split; [by rewrite populateSecret_lookup|]).
  split; [|split; [done|split; [done|apply Hlast]]].
  intros k Hk. rewrite populateSecret_lookup.
  repeat case_decide; try done; subst; set_solver.
Qed.

(** ** Failures of the leaf issuer *)

(** X22. How [CreateCertPEM] fails.  It draws one key whatever happens
    next.  With an exhausted random source it returns the source's
    error, also when it was given no CA.  Given a CA whose key is not
    the key of the CA's certificate it returns the error of
    [x509.CreateCertificate] instead of a leaf.  Given no CA and a key
    to draw, it panics.  An error always comes with two empty blobs. *)
Theorem X22_CreateCertPEM_failures
    (r : Reconciler) (ca : option KeyPairArtifacts) (begin end_ : time.Time) (w : World) :
  let o := CreateCertPEM r ca begin end_ w in
  final o = drawn w
  ∧ (random w = [] →
     o = Returned ([], [], Some (errors.New "crypto/rsa: reading random source failed"))
                  (drawn w))
  ∧ (random w ≠ [] → ca = None → o = Panicked nilDereference (drawn w))
  ∧ (random w ≠ [] → (∃ a, ca = Some a ∧ keyBelongs a = false) →
     o = Returned ([], [], Some (errors.New
                     "x509: provided PrivateKey doesn't match parent's PublicKey"))
                  (drawn w))
  ∧ (∀ certPEM keyPEM err w', o = Returned (certPEM, keyPEM, Some err) w' →
       certPEM = [] ∧ keyPEM = []).
Proof.
  intros o. subst o. destruct ca as [a|].
  - rewrite CreateCertPEM_run.
    destruct (random w) as [|k rest] eqn:Hr.
    + split; [done|]. split; [done|]. split; [done|]. split; [done|].
      by intros ???? [= <- <- _ _].
    + destruct (keyBelongs a) eqn:Hk.
      * split; [done|]. split; [done|]. split; [done|].
        split; [intros _ (a' & [= <-] & ?); congruence|]. done.
      * split; [done|]. split; [done|]. split; [done|]. split; [done|].
        by intros ???? [= <- <- _ _].
  - unfold CreateCertPEM. go_run. unfold rsa.GenerateKey.
    destruct (random w) as [|k rest] eqn:Hr; simpl; unfold drawn; rewrite Hr; simpl.
    + split; [done|]. split; [done|]. split; [done|].
      split; [by intros _ (a' & [=] & _)|]. by intros ???? [= <- <- _ _].
    + split; [done|]. split; [done|]. split; [done|].
      split; [by intros _ (a' & [=] & _)|]. done.
Qed.

(** * The further properties on concrete inputs *)

Section further_concrete.
Import Scenario Cases.

Lemma X1_witness :
  ("tls.crt" ∈ ["ca.crt"; "tls.crt"]) ∧ contains ["ca.crt"; "tls.crt"] "tls.crt" = true.
Proof.
  assert ("tls.crt" ∈ ["ca.crt"; "tls.crt"]) as H by (right; left).
  split; [exact H|].
  exact (proj2 (proj1 (X1_contains_is_membership ["ca.crt"; "tls.crt"] "tls.crt")) H).
Defined.

Lemma X2_witness :
  (types.Name (ctrl.NamespacedName reqOther) ∉ CrdResources r3)
  ∧ Reconcile r3 reqOther w0 = Returned (r3, ({| ctrl.Requeue := false |}, None)) w0.
Proof.
  assert (types.Name (ctrl.NamespacedName reqOther) ∉ CrdResources r3) as H.
  { simpl. intros Hin. apply list_elem_of_singleton in Hin. discriminate. }
  split; [exact H|].
  exact (proj1 (X2_Reconcile_only_listed_resources r3 reqOther w0) H).
Defined.

Lemma X3_witness :
  CrdResources r0 !! 0%nat = Some "externalsecrets.external-secrets.io"
  ∧ ConvertToWebhookInfo r0 !! 0%nat
    = Some {| Name := "externalsecrets.external-secrets.io"; Type_ := CRDConversion |}.
Proof.
  split; [reflexivity|].
  exact (proj2 (proj2 (X3_ConvertToWebhookInfo_describes_every_resource r0))
           0%nat _ eq_refl).
Defined.

Lemma X4_witness :
  unstructured.NestedFieldNoCopy (unstructured.Map (unstructured.Object crd0))
    conversionClientConfig = (Some (unstructured.Map []), true, None)
  ∧ unstructured.get "service" [] = None
  ∧ ∃ crd', injectSvcToConversionWebhook crd0 svc0 = (crd', None).
Proof.
  split; [reflexivity|]. split; [reflexivity|].
  exact (proj2 (proj2 (X4_injectSvc_sets_the_service crd0 svc0))
           [] eq_refl (or_introl eq_refl)).
Defined.

Lemma X5_witness :
  injectSvcToConversionWebhook crd0 svc0 = (crd1, None)
  ∧ ∃ crd', injectCertToConversionWebhook crd1 (CertPEM ca0) = (crd', None)
            ∧ unstructured.NestedFieldNoCopy
                (unstructured.Map (unstructured.Object crd'))
                (conversionClientConfig ++ ["service"; "name"])
              = (Some (unstructured.String_ "webhook"), true, None)
            ∧ unstructured.NestedFieldNoCopy
                (unstructured.Map (unstructured.Object crd'))
                (conversionClientConfig ++ ["service"; "namespace"])
              = (Some (unstructured.String_ "default"), true, None).
Proof.
  assert (injectSvcToConversionWebhook crd0 svc0 = (crd1, None)) as H
    by (vm_compute; reflexivity).
  split; [exact H|].
  exact (proj2 (proj2 (X5_injectCert_after_injectSvc crd1 (CertPEM ca0))) crd0 svc0 H).
Defined.

Lemma X6_witness :
  buildArtifactsFromSecret noKeySecret = (None, None)
  ∧ random w0 ≠ []
  ∧ refreshCerts r0 false noKeySecret w0 = Panicked nilDereference (drawn w0)
  ∧ caValid r0 noKeySecret w0 = false.
Proof.
  assert (buildArtifactsFromSecret noKeySecret = (None, None)) as H1
    by (vm_compute; reflexivity).
  assert (random w0 ≠ []) as H2 by discriminate.
  split; [exact H1|]. split; [exact H2|].
  exact (proj2 (X6_engine_never_panics r0 noKeySecret w0) H1 H2).
Defined.

Lemma X7_witness :
  caValid r0 goodSecret w1000 = true
  ∧ leafValid r0 goodSecret w1000 = true
  ∧ refreshCertIfNeeded r0 goodSecret w1000 = Returned (goodSecret, (true, None)) w1000.
Proof.
  assert (caValid r0 goodSecret w1000 = true) as H1 by (vm_compute; reflexivity).
  assert (leafValid r0 goodSecret w1000 = true) as H2 by (vm_compute; reflexivity).
  split; [exact H1|]. split; [exact H2|].
  exact (proj2 (X7_engine_error_is_always_nil r0 goodSecret w1000) H1 H2).
Defined.

Lemma X8_witness :
  let o := refreshCertIfNeeded r4 emptySecret w0 in
  o = Exited 0 (final o)
  ∧ RestartOnSecretRefresh r4 = true
  ∧ ∃ payload w'',
      final o = logged (SecretObject payload) w''
      ∧ updates w'' = updates w0
      ∧ client.Update (Client r4) w'' (SecretObject payload) = None
      ∧ completeBundle payload.
Proof.
  intros o.
  assert (o = Exited 0 (final o)) as H by (vm_compute; reflexivity).
  split; [exact H|].
  exact (proj2 (proj1 (X8_exit_only_after_an_accepted_rotation r4 emptySecret w0)
                  0 (final o) H)).
Defined.


Lemma X10_witness :
  let o := refreshCerts r0 false goodSecret w1000 in
  ∃ s' err,
    o = Returned (s', err) (final o)
    ∧ ((is_Some err ∧ s' = goodSecret ∧ updates (final o) = updates w1000)
       ∨ ∃ w'', final o = logged (SecretObject s') w''
                ∧ updates w'' = updates w1000
                ∧ err = client.Update (Client r0) w'' (SecretObject s')
                ∧ completeBundle s').
Proof.
  intros o.
  exists (rotated r0 ca0 k3 w1000 goodSecret), None.
  assert (o = Returned (rotated r0 ca0 k3 w1000 goodSecret, None) (final o)) as H
    by (vm_compute; reflexivity).
  split; [exact H|].
  exact (X10_refreshCerts_is_all_or_nothing r0 false goodSecret w1000 _ _ _ H).
Defined.

Lemma X11_witness :
  caValid r0 expiringLeafSecret w1000 = true
  ∧ ∃ n : nat,
      random (final (refreshCertIfNeeded r0 expiringLeafSecret w1000))
      = drop n (random w1000)
      ∧ (n ≤ 1)%nat.
Proof.
  assert (caValid r0 expiringLeafSecret w1000 = true) as H by (vm_compute; reflexivity).
  split; [exact H|].
  destruct (X11_keys_drawn_by_a_pass r0 expiringLeafSecret w1000)
    as (n & Hn & _ & H1 & _).
  exists n. split; [exact Hn|exact (H1 H)].
Defined.

Lemma X12_witness :
  let certPEM := pemCert (leafCertificate r0 ca0 0 (1010 * day) k3) in
  CreateCertPEM r0 (Some ca0) 0 (1010 * day) w1000
  = Returned (certPEM, pemKey k3, None) (drawn w1000)
  ∧ firstCert (CertPEM ca1) = Some (Cert ca1)
  ∧ x509.PublicKey (Cert ca1) ≠ Some (rsa.Public (Key ca0))
  ∧ firstCert certPEM ≠ Some (Cert ca1)
  ∧ ∃ err, ValidCert (CertPEM ca1) certPEM (pemKey k3) host (1000 * day)
           = (false, Some err).
Proof.
  intros certPEM.
  assert (CreateCertPEM r0 (Some ca0) 0 (1010 * day) w1000
          = Returned (certPEM, pemKey k3, None) (drawn w1000)) as H1
    by (vm_compute; reflexivity).
  assert (firstCert (CertPEM ca1) = Some (Cert ca1)) as H2 by (vm_compute; reflexivity).
  assert (x509.PublicKey (Cert ca1) ≠ Some (rsa.Public (Key ca0))) as H3
    by (vm_compute; discriminate).
  assert (firstCert certPEM ≠ Some (Cert ca1)) as H4 by (vm_compute; discriminate).
  do 4 (split; [assumption|]).
  exact (X12_leaf_fails_under_another_CA r0 ca0 0 (1010 * day) w1000 (drawn w1000)
           certPEM (pemKey k3) (CertPEM ca1) (Cert ca1) host (1000 * day) H1 H2 H3 H4).
Defined.


Lemma X14_witness :
  ValidCert (CertPEM ca0) (pemCert leaf1) (pemKey k2) host (1000 * day) = (true, None)
  ∧ ValidCert (CertPEM ca0) (pemCert leaf1) (pemKey k2) host (1090 * day) = (true, None)
  ∧ 1000 * day ≤ 1050 * day ≤ 1090 * day
  ∧ ValidCert (CertPEM ca0) (pemCert leaf1) (pemKey k2) host (1050 * day) = (true, None).
Proof.
  assert (ValidCert (CertPEM ca0) (pemCert leaf1) (pemKey k2) host (1000 * day)
          = (true, None)) as H1 by (vm_compute; reflexivity).
  assert (ValidCert (CertPEM ca0) (pemCert leaf1) (pemKey k2) host (1090 * day)
          = (true, None)) as H3 by (vm_compute; reflexivity).
  assert (1000 * day ≤ 1050 * day ≤ 1090 * day) as H2
    by (split; vm_compute; discriminate).
  do 3 (split; [assumption|]).
  exact (X14_accepted_times_form_an_interval _ _ _ _ _ _ _ H1 H3 H2).
Defined.

Lemma X15_witness :
  let o := updateCRD r5 req0 w0 in
  o = Exited 0 (final o)
  ∧ RestartOnSecretRefresh r5 = true
  ∧ ∃ payload, updates (final o) = (updates w0 ++ [SecretObject payload])%list.
Proof.
  intros o.
  assert (o = Exited 0 (final o)) as H by (vm_compute; reflexivity).
  split; [exact H|].
  exact (proj2 (proj2 (X15_updateCRD_never_panics r5 req0 w0) 0 (final o) H)).
Defined.

Lemma X16_witness :
  let w' := final (updateCRD r3 req0 w0) in
  updateCRD r3 req0 w0 = Returned (r3, None) w'
  ∧ ∃ svc secret crd',
      client.ListServices (Client r3) w0 (SvcLabels r3) = inl [svc]
      ∧ client.ListSecrets (Client r3) w0 (SecretLabels r3) = inl [secret]
      ∧ r3 = set_dnsName r3 (metav1.Name (corev1.ServiceMeta svc) +:+ "." +:+
                             metav1.Namespace (corev1.ServiceMeta svc) +:+ ".svc")
      ∧ (∃ w1, w' = logged (UnstructuredObject crd') w1
               ∧ client.Update (Client r3) w1 (UnstructuredObject crd') = None)
      ∧ unstructured.NestedFieldNoCopy (unstructured.Map (unstructured.Object crd'))
          (conversionClientConfig ++ ["service"; "name"])
        = (Some (unstructured.String_ (metav1.Name (corev1.ServiceMeta svc))), true, None)
      ∧ unstructured.NestedFieldNoCopy (unstructured.Map (unstructured.Object crd'))
          (conversionClientConfig ++ ["service"; "namespace"])
        = (Some (unstructured.String_ (metav1.Namespace (corev1.ServiceMeta svc))),
           true, None)
      ∧ (∀ s' w1, refreshCertIfNeeded r3 secret w0 = Returned (s', (true, None)) w1 →
           unstructured.NestedFieldNoCopy (unstructured.Map (unstructured.Object crd'))
             (conversionClientConfig ++ ["caBundle"])
           = (Some (unstructured.Base64 (corev1.index s' caCertName)), true, None)
           ∧ is_Some (firstCert (corev1.index s' caCertName))).
Proof.
  intros w'.
  assert (updateCRD r3 req0 w0 = Returned (r3, None) w') as H by (vm_compute; reflexivity).
  split; [exact H|].
  exact (X16_updateCRD_success r3 req0 w0 r3 w' H).
Defined.

Lemma X17_witness :
  let o := updateCRD r3 req0 w0 in
  ∃ pre post,
    updates (final o) = (updates w0 ++ pre ++ post)%list
    ∧ (pre = [] ∨ ∃ payload, pre = [SecretObject payload])
    ∧ (post = [] ∨ ∃ crd, post = [UnstructuredObject crd]).
Proof.
  intros o.
  destruct (X17_updateCRD_updates r3 req0 w0) as (pre & post & H1 & H2 & H3 & _).
  exists pre, post. split; [exact H1|]. split; [exact H2|exact H3].
Defined.

Lemma X18_witness :
  client.ListServices (Client r6) w0 (SvcLabels r6) = inl [svc0]
  ∧ client.ListSecrets (Client r6) w0 (SecretLabels r6) = inl [emptySecret]
  ∧ client.Get (Client r6) w0 (ctrl.NamespacedName req0) = inl crdBare
  ∧ unstructured.NestedFieldNoCopy (unstructured.Map (unstructured.Object crdBare))
      conversionClientConfig = (None, false, None)
  ∧ updateCRD r6 req0 w0
    = Returned (r6, Some (errors.New "`conversion.webhook.clientConfig` field not found in CustomResourceDefinition")) w0.
Proof.
  do 4 (split; [reflexivity|]).
  exact (proj2 (proj2 (proj2 (proj2 (X18_updateCRD_needs_its_inputs r6 req0 w0)))
                  svc0 emptySecret eq_refl eq_refl)
           crdBare eq_refl eq_refl).
Defined.


Lemma X20_witness :
  lookupData mismatchedSecret caCertName = Some (CertPEM mismatched)
  ∧ lookupData mismatchedSecret caKeyName = Some (KeyPEM mismatched)
  ∧ firstCert (CertPEM mismatched) = Some (Cert mismatched)
  ∧ keyBelongs mismatched = false
  ∧ buildArtifactsFromSecret mismatchedSecret = (Some mismatched, None).
Proof.
  assert (lookupData mismatchedSecret caCertName = Some (CertPEM mismatched)) as H1
    by (vm_compute; reflexivity).
  assert (lookupData mismatchedSecret caKeyName = Some (KeyPEM mismatched)) as H2
    by (vm_compute; reflexivity).
  assert (firstCert (CertPEM mismatched) = Some (Cert mismatched)) as H3
    by (vm_compute; reflexivity).
  do 3 (split; [assumption|]). split; [vm_compute; reflexivity|].
  apply (proj1 (X20_buildArtifactsFromSecret_outcomes mismatchedSecret) mismatched).
  do 3 (split; [assumption|]).
  eexists _, _. split; reflexivity.
Defined.

Lemma X21_witness :
  ("owner" ∉ [caCertName; caKeyName; certName; keyName])
  ∧ lookupData (populateSecret (pemCert leaf1) (pemKey k2) ca0 goodSecret) "owner"
    = lookupData goodSecret "owner".
Proof.
  assert ("owner" ∉ [caCertName; caKeyName; certName; keyName]) as H.
  { intros Hin. repeat (apply elem_of_cons in Hin as [Hin|Hin]; [discriminate|]).
    by apply elem_of_nil in Hin. }
  split; [exact H|].
  exact (proj1 (proj2 (proj2 (proj2 (proj2 (proj2
           (X21_populateSecret_overwrites_the_bundle
              (pemCert leaf1) (pemKey k2) ca0 goodSecret)))))) "owner" H).
Defined.

Lemma X22_witness :
  random w0 ≠ []
  ∧ keyBelongs mismatched = false
  ∧ CreateCertPEM r0 (Some mismatched) 0 (1010 * day) w0
    = Returned ([], [], Some (errors.New
                  "x509: provided PrivateKey doesn't match parent's PublicKey"))
               (drawn w0).
Proof.
  assert (random w0 ≠ []) as H1 by discriminate.
  assert (keyBelongs mismatched = false) as H2 by (vm_compute; reflexivity).
  split; [exact H1|]. split; [exact H2|].
  exact (proj1 (proj2 (proj2 (proj2
           (X22_CreateCertPEM_failures r0 (Some mismatched) 0 (1010 * day) w0))))
           H1 (ex_intro _ mismatched (conj eq_refl H2))).
Defined.
End further_concrete.
